(** * Smite panel: the Telegram bot session and its backup scheduler

    A shallow embedding of [panel/app/telegram_bot.py]: the [TelegramBot]
    object, its settings loader, the access check, the session lifecycle
    ([start] / [stop]), the automatic backup loop, the backup producer and
    the command and callback handlers.

    Python's effects are written out: a coroutine is a function from the
    program state to an outcome and a new state.  The outcome is a normal
    return, a raised [Exception], a delivered [asyncio.CancelledError]
    (a [BaseException] since Python 3.8, so [except Exception] lets it
    through), or the exhaustion of the iteration budget of [while True]. *)

From Stdlib Require Import ZArith String Ascii List Bool Lia DecimalString.
From Stdlib Require DecimalPos DecimalZ.
Import ListNotations.
Local Open Scope string_scope.
Local Open Scope list_scope.
Local Open Scope Z_scope.

Set Implicit Arguments.

(* ================================================================== *)
(** ** Outcomes of Python code *)

(** The classes of [Exception] that the modelled calls raise. *)
Inductive Exc : Type :=
| DbError            (* the settings / repository query failed *)
| TransportError     (* a call of the bot SDK failed *)
| OSError            (* a filesystem call failed *)
| ValueError.        (* [int()] on a string that is not a number *)

Inductive Outcome (A : Type) : Type :=
| Ret (a : A)        (* normal completion *)
| Raise (e : Exc)    (* an [Exception] propagates *)
| Cancel             (* [asyncio.CancelledError] propagates *)
| Timeout.           (* the loop budget of the model ran out: still running *)

Arguments Ret {A} a.
Arguments Raise {A} e.
Arguments Cancel {A}.
Arguments Timeout {A}.

(* ================================================================== *)
(** ** The filesystem *)

(** A path is the list of its components below the root. *)
Definition Path := list string.

(** [pathlib.Path] built from a literal or a setting: relative paths are
    interpreted against the working directory when the file is accessed. *)
Record PyPath : Type := mkPyPath {
  is_absolute : bool;
  parts : list string
}.

#[warnings="-register-all"]
Inductive Node : Type :=
| File (readable : bool)
| Dir (entries : list (string * Node)).

Fixpoint assoc (k : string) (es : list (string * Node)) : option Node :=
  match es with
  | [] => None
  | (k', v) :: es' => if String.eqb k k' then Some v else assoc k es'
  end.

Fixpoint assoc_set (k : string) (v : Node) (es : list (string * Node))
  : list (string * Node) :=
  match es with
  | [] => [(k, v)]
  | (k', v') :: es' =>
      if String.eqb k k' then (k, v) :: es' else (k', v') :: assoc_set k v es'
  end.

Fixpoint assoc_del (k : string) (es : list (string * Node))
  : list (string * Node) :=
  match es with
  | [] => []
  | (k', v') :: es' =>
      if String.eqb k k' then assoc_del k es' else (k', v') :: assoc_del k es'
  end.

(** The node at a path, if any. *)
Fixpoint fs_lookup (p : Path) (n : Node) : option Node :=
  match p with
  | [] => Some n
  | c :: p' =>
      match n with
      | Dir es => match assoc c es with
                  | Some m => fs_lookup p' m
                  | None => None
                  end
      | File _ => None
      end
  end.

(** Put node [v] at path [p]; the parent has to be a directory. *)
Fixpoint fs_put (p : Path) (v : Node) (n : Node) : option Node :=
  match p with
  | [] => Some v
  | c :: p' =>
      match n with
      | Dir es =>
          match p' with
          | [] => Some (Dir (assoc_set c v es))
          | _ => match assoc c es with
                 | Some m => match fs_put p' v m with
                             | Some m' => Some (Dir (assoc_set c m' es))
                             | None => None
                             end
                 | None => None
                 end
          end
      | File _ => None
      end
  end.

(** Unlink the entry at path [p] (a file or a whole subtree). *)
Fixpoint fs_del (p : Path) (n : Node) : option Node :=
  match p with
  | [] => None
  | c :: p' =>
      match n with
      | Dir es =>
          match p' with
          | [] => match assoc c es with
                  | Some _ => Some (Dir (assoc_del c es))
                  | None => None
                  end
          | _ => match assoc c es with
                 | Some m => match fs_del p' m with
                             | Some m' => Some (Dir (assoc_set c m' es))
                             | None => None
                             end
                 | None => None
                 end
          end
      | File _ => None
      end
  end.

Definition fs_exists (p : Path) (n : Node) : bool :=
  match fs_lookup p n with Some _ => true | None => false end.

Definition fs_is_dir (p : Path) (n : Node) : bool :=
  match fs_lookup p n with Some (Dir _) => true | _ => false end.

Definition fs_is_file (p : Path) (n : Node) : bool :=
  match fs_lookup p n with Some (File _) => true | _ => false end.

(** [os.walk]: the files below a node, as paths relative to it. *)
Fixpoint walk (n : Node) : list (Path * bool) :=
  match n with
  | File r => [([], r)]
  | Dir es =>
      (fix walk_entries (es : list (string * Node)) : list (Path * bool) :=
         match es with
         | [] => []
         | (k, m) :: es' =>
             map (fun pr => (k :: fst pr, snd pr)) (walk m) ++ walk_entries es'
         end) es
  end.

(** [shutil.copytree(src, dst, dirs_exist_ok=True)] on nodes: the source
    tree merged over what the destination already holds.  [None] when a
    file of the source cannot be read or a directory meets a file. *)
Fixpoint merge_tree (src : Node) (dst : option Node) : option Node :=
  match src with
  | File r => if r then Some (File r) else None
  | Dir es =>
      match dst with
      | Some (File _) => None
      | _ =>
          let base := match dst with Some (Dir ds) => ds | _ => [] end in
          (fix merge_entries (es : list (string * Node))
                             (acc : list (string * Node))
             : option Node :=
             match es with
             | [] => Some (Dir acc)
             | (k, m) :: es' =>
                 match merge_tree m (assoc k acc) with
                 | Some m' => merge_entries es' (assoc_set k m' acc)
                 | None => None
                 end
             end) es base
      end
  end.

(* ================================================================== *)
(** ** Data of the bot *)

(** The JSON object stored under the settings key ["telegram"]; a field
    is [None] when the object has no such key. *)
Record SettingValue : Type := mkSettingValue {
  sv_enabled : option bool;
  sv_bot_token : option string;
  sv_admin_ids : option (list string);
  sv_backup_enabled : option bool;
  sv_backup_interval : option Z;
  sv_backup_interval_unit : option string
}.

(** The handle of a built SDK application; [updater_running] is the
    SDK's [application.updater.running]. *)
Record Application : Type := mkApplication {
  app_id : nat;
  updater_running : bool
}.

(** The fields of a [TelegramBot] object. *)
Record TelegramBot : Type := mkBot {
  application : option Application;
  enabled : bool;
  bot_token : option string;
  admin_ids : list string;
  backup_task : option nat;
  backup_enabled : bool;
  backup_interval : Z;
  backup_interval_unit : string
}.

(** [TelegramBot.__init__] *)
Definition init_bot : TelegramBot :=
  mkBot None false None [] None false 60 "minutes".

Record NodeRow : Type := mkNodeRow {
  node_id : string;
  node_name : string;
  node_status : string
}.

Record TunnelRow : Type := mkTunnelRow {
  tunnel_id : string;
  tunnel_name : string;
  tunnel_status : string
}.

(** An inbound update: who sent it, the chat it came from and, for a
    button press, the callback data. *)
Record Update : Type := mkUpdate {
  effective_user_id : Z;
  chat_id : Z;
  data : string
}.

(* ================================================================== *)
(** ** Observable events *)

(** The texts of the replies are presentation; a reply is identified by
    its role. *)
Inductive Msg : Type :=
| MsgDenied | MsgWelcome | MsgHelp
| MsgNoNodes | MsgNodes (rows : list NodeRow)
| MsgNoTunnels | MsgTunnels (rows : list TunnelRow)
| MsgStatus (active_nodes n_nodes active_tunnels n_tunnels : nat)
| MsgCreatingBackup | MsgBackupFailed | MsgBackupError | MsgBackupSent
| MsgNodeNotFound | MsgNodeInfo (row : NodeRow)
| MsgTunnelNotFound | MsgTunnelInfo (row : TunnelRow).

(** Calls of the bot SDK. *)
Inductive Sdk : Type :=
| Build (a : nat)
| AddHandler (a : nat) (name : string)
| Initialize (a : nat)
| AppStart (a : nat)
| StartPolling (a : nat) (drop_pending_updates : bool)
| UpdaterStop (a : nat)
| AppStop (a : nat)
| AppShutdown (a : nat)
| SendDocument (chat : Z) (document : Path)
| ReplyText (chat : Z) (m : Msg)
| ReplyDocument (chat : Z) (document : Path)
| Answer (chat : Z)
| EditMessageText (chat : Z) (m : Msg).

(** Queries against the panel's database. *)
Inductive Query : Type :=
| SelectSettings
| SelectNodes
| SelectTunnels
| SelectNode (id : string)
| SelectTunnel (id : string).

Inductive Level : Type := Info | Warning | Error.

Inductive Event : Type :=
| EvSdk (c : Sdk) (ok : bool)          (* an SDK call and whether it returned *)
| EvQuery (q : Query) (ok : bool)      (* a database query *)
| EvSleep (seconds : Z)                (* [asyncio.sleep] entered *)
| EvCreateBackup                       (* [create_backup] entered *)
| EvRemove (p : Path)                  (* [os.remove] unlinked a file *)
| EvCreateTask (t : nat)               (* [asyncio.create_task] *)
| EvCancelTask (t : nat)               (* [task.cancel()] followed by its await *)
| EvLog (lvl : Level) (what : string).

(* ================================================================== *)
(** ** The environment and the program state *)

(** What the collaborators answer.  Every oracle is indexed by the number
    of earlier calls of its kind, so that a run is a function of the
    environment. *)
Record Env : Type := mkEnv {
  TELEGRAM_AVAILABLE : bool;
  db_fails : nat -> bool;                      (* the k-th query raises *)
  telegram_row : nat -> option SettingValue;   (* the settings row seen by the k-th query *)
  nodes_table : list NodeRow;
  tunnels_table : list TunnelRow;
  sdk_fails : nat -> bool;                     (* the k-th failable SDK call raises *)
  cancel_at : nat -> bool;                     (* the backup task is cancelled at its k-th suspension *)
  strftime_now : nat -> string;                (* the k-th formatted reading of the clock *)
  cwd : Path;                                  (* [os.getcwd()] *)
  node_cert_path : PyPath;                     (* [app.config.settings] *)
  node_key_path : PyPath;
  node_server_cert_path : PyPath;
  node_server_key_path : PyPath
}.

Record State : Type := mkState {
  self : TelegramBot;
  fs : Node;
  in_backup_task : bool;     (* the running code is the backup task *)
  db_calls : nat;
  sdk_calls : nat;
  suspensions : nat;
  clock_reads : nat;
  next_app : nat;
  next_task : nat;
  live_tasks : list nat;     (* scheduler tasks created and not yet awaited to their end *)
  receiving : list nat;      (* applications whose updater polls for updates *)
  trace : list Event         (* oldest event first *)
}.

Definition set_self (b : TelegramBot) (s : State) : State :=
  mkState b (fs s) (in_backup_task s) (db_calls s) (sdk_calls s)
          (suspensions s) (clock_reads s) (next_app s) (next_task s)
          (live_tasks s) (receiving s) (trace s).

Definition set_fs (n : Node) (s : State) : State :=
  mkState (self s) n (in_backup_task s) (db_calls s) (sdk_calls s)
          (suspensions s) (clock_reads s) (next_app s) (next_task s)
          (live_tasks s) (receiving s) (trace s).

Definition set_live_tasks (l : list nat) (s : State) : State :=
  mkState (self s) (fs s) (in_backup_task s) (db_calls s) (sdk_calls s)
          (suspensions s) (clock_reads s) (next_app s) (next_task s)
          l (receiving s) (trace s).

Definition set_receiving (l : list nat) (s : State) : State :=
  mkState (self s) (fs s) (in_backup_task s) (db_calls s) (sdk_calls s)
          (suspensions s) (clock_reads s) (next_app s) (next_task s)
          (live_tasks s) l (trace s).

Definition emit (e : Event) (s : State) : State :=
  mkState (self s) (fs s) (in_backup_task s) (db_calls s) (sdk_calls s)
          (suspensions s) (clock_reads s) (next_app s) (next_task s)
          (live_tasks s) (receiving s) (trace s ++ [e]).

(** A fresh process: the bot object just constructed, nothing running. *)
Definition boot (disk : Node) : State :=
  mkState init_bot disk false 0 0 0 0 0 0 [] [] [].

(* ================================================================== *)
(** ** The monad of coroutines *)

Definition Task (A : Type) : Type := State -> Outcome A * State.

Definition ret {A} (a : A) : Task A := fun s => (Ret a, s).

Definition bind {A B} (m : Task A) (k : A -> Task B) : Task B :=
  fun s =>
    match m s with
    | (Ret a, s') => k a s'
    | (Raise e, s') => (Raise e, s')
    | (Cancel, s') => (Cancel, s')
    | (Timeout, s') => (Timeout, s')
    end.

Notation "x <- m ;; k" := (bind m (fun x => k))
  (at level 61, m at next level, right associativity).
Notation "m ;; k" := (bind m (fun _ => k))
  (at level 61, right associativity).

Definition raise {A} (e : Exc) : Task A := fun s => (Raise e, s).

Definition get_self : Task TelegramBot := fun s => (Ret (self s), s).
Definition put_self (b : TelegramBot) : Task unit :=
  fun s => (Ret tt, set_self b s).
Definition get_fs : Task Node := fun s => (Ret (fs s), s).
Definition put_fs (n : Node) : Task unit := fun s => (Ret tt, set_fs n s).
Definition log (lvl : Level) (what : string) : Task unit :=
  fun s => (Ret tt, emit (EvLog lvl what) s).
Definition event (e : Event) : Task unit := fun s => (Ret tt, emit e s).

(** [try: m  except Exception as e: h e] *)
Definition try_except {A} (m : Task A) (h : Exc -> Task A) : Task A :=
  fun s =>
    match m s with
    | (Raise e, s') => h e s'
    | r => r
    end.

(** [try: m  except asyncio.CancelledError: hc  except Exception as e: h e] *)
Definition try_except_cancelled {A} (m : Task A) (hc : Task A)
           (h : Exc -> Task A) : Task A :=
  fun s =>
    match m s with
    | (Raise e, s') => h e s'
    | (Cancel, s') => hc s'
    | r => r
    end.

(** [try: m  finally: f]: [f] runs however [m] ended, and the way [m]
    ended is kept unless [f] itself does not return. *)
Definition try_finally {A} (m : Task A) (f : Task unit) : Task A :=
  fun s =>
    match m s with
    | (Timeout, s') => (Timeout, s')
    | (r, s') =>
        match f s' with
        | (Ret _, s'') => (r, s'')
        | (Raise e, s'') => (Raise e, s'')
        | (Cancel, s'') => (Cancel, s'')
        | (Timeout, s'') => (Timeout, s'')
        end
    end.

(** [for x in xs: body x] *)
Fixpoint for_each {A} (xs : list A) (body : A -> Task unit) : Task unit :=
  match xs with
  | [] => ret tt
  | x :: xs' => body x ;; for_each xs' body
  end.

(** [while True: body], unfolded at most [fuel] times. *)
Fixpoint while_true (fuel : nat) (body : Task unit) : Task unit :=
  match fuel with
  | O => fun s => (Timeout, s)
  | S fuel' => body ;; while_true fuel' body
  end.

(* ================================================================== *)
(** ** Python built-ins used by the bot *)

(** [str(n)] for an [int]. *)
Definition str (n : Z) : string := NilZero.string_of_int (Z.to_int n).

(** Truth value of a string, of an optional string and of a list. *)
Definition truthy_string (s : string) : bool := negb (String.eqb s "").

Definition truthy_opt_string (o : option string) : bool :=
  match o with Some s => truthy_string s | None => false end.

Definition truthy_list {A} (l : list A) : bool :=
  match l with [] => false | _ => true end.

Definition is_space (c : ascii) : bool :=
  let n := nat_of_ascii c in
  (Nat.eqb n 32 || (Nat.leb 9 n && Nat.leb n 13))%bool.

Fixpoint lstrip (s : string) : string :=
  match s with
  | String c s' => if is_space c then lstrip s' else s
  | EmptyString => s
  end.

Fixpoint rstrip (s : string) : string :=
  match s with
  | String c s' =>
      match rstrip s' with
      | EmptyString => if is_space c then EmptyString else String c EmptyString
      | r => String c r
      end
  | EmptyString => EmptyString
  end.

(** [int(s)] on a string, for the ASCII decimal forms: optional blanks
    around an optionally signed run of digits.  [None] is [ValueError]. *)
Definition py_int (s : string) : option Z :=
  match rstrip (lstrip s) with
  | String "+" d =>
      match NilZero.uint_of_string d with
      | Some u => Some (Z.of_uint u)
      | None => None
      end
  | t => match NilZero.int_of_string t with
         | Some i => Some (Z.of_int i)
         | None => None
         end
  end.

(** [s.replace(old, "")] for a non-empty [old]: every non-overlapping
    occurrence, scanning from the left, is dropped.  [skip] counts the
    characters of a match that are still to be dropped. *)
Fixpoint remove_all (old : string) (skip : nat) (s : string) : string :=
  match s with
  | EmptyString => EmptyString
  | String c s' =>
      match skip with
      | S k => remove_all old k s'
      | O => if String.prefix old s
             then remove_all old (Nat.pred (String.length old)) s'
             else String c (remove_all old O s')
      end
  end.

(** [pathlib]'s [suffix] of a file name: from the last dot on, unless
    that dot is the first or the last character. *)
Fixpoint last_dot (s : string) (i : nat) : option nat :=
  match s with
  | EmptyString => None
  | String c s' =>
      match last_dot s' (S i) with
      | Some j => Some j
      | None => if Ascii.eqb c "." then Some i else None
      end
  end.

Definition suffix (name : string) : string :=
  match last_dot name O with
  | Some i =>
      if (Nat.ltb 0 i && Nat.ltb i (Nat.pred (String.length name)))%bool
      then String.substring i (String.length name - i)%nat name
      else ""
  | None => ""
  end.

(* ================================================================== *)
(** ** The access check and the interval *)

(** [TelegramBot.is_admin]: [str(user_id) in self.admin_ids] *)
Definition is_admin (b : TelegramBot) (user_id : Z) : bool :=
  existsb (String.eqb (str user_id)) (admin_ids b).

(** The [sleep_seconds] of [_backup_loop]. *)
Definition sleep_seconds (b : TelegramBot) : Z :=
  if String.eqb (backup_interval_unit b) "hours"
  then backup_interval b * 3600
  else backup_interval b * 60.

Definition with_application (o : option Application) (b : TelegramBot)
  : TelegramBot :=
  mkBot o (enabled b) (bot_token b) (admin_ids b) (backup_task b)
        (backup_enabled b) (backup_interval b) (backup_interval_unit b).

Definition with_backup_task (o : option nat) (b : TelegramBot)
  : TelegramBot :=
  mkBot (application b) (enabled b) (bot_token b) (admin_ids b) o
        (backup_enabled b) (backup_interval b) (backup_interval_unit b).

(** The assignments of [load_settings]: [value.get(key, default)] for a
    row with a value, the defaults otherwise. *)
Definition with_settings (row : option SettingValue) (b : TelegramBot)
  : TelegramBot :=
  match row with
  | Some v =>
      mkBot (application b)
            (match sv_enabled v with Some x => x | None => false end)
            (sv_bot_token v)
            (match sv_admin_ids v with Some x => x | None => [] end)
            (backup_task b)
            (match sv_backup_enabled v with Some x => x | None => false end)
            (match sv_backup_interval v with Some x => x | None => 60 end)
            (match sv_backup_interval_unit v with
             | Some x => x | None => "minutes" end)
  | None =>
      mkBot (application b) false None [] (backup_task b) false 60 "minutes"
  end.

(* ================================================================== *)
(** ** The program *)

Section Program.

Variable env : Env.

(** *** Primitive effects *)

(** A suspension point ([await]): where the backup task can receive its
    cancellation.  The backup task is the only cancellable unit. *)
Definition suspend : Task unit :=
  fun s =>
    if in_backup_task s then
      let s' := mkState (self s) (fs s) (in_backup_task s) (db_calls s)
                        (sdk_calls s) (S (suspensions s)) (clock_reads s)
                        (next_app s) (next_task s) (live_tasks s)
                        (receiving s) (trace s) in
      if cancel_at env (suspensions s) then (Cancel, s') else (Ret tt, s')
    else (Ret tt, s).

(** [async with AsyncSessionLocal() as session: await session.execute(q)];
    the result is the index of the query, by which the rows are read. *)
Definition execute (q : Query) : Task nat :=
  suspend ;;
  fun s =>
    let k := db_calls s in
    let ok := negb (db_fails env k) in
    let s' := mkState (self s) (fs s) (in_backup_task s) (S k)
                      (sdk_calls s) (suspensions s) (clock_reads s)
                      (next_app s) (next_task s) (live_tasks s)
                      (receiving s) (trace s ++ [EvQuery q ok]) in
    if ok then (Ret k, s') else (Raise DbError, s').

(** A call of the SDK that can fail. *)
Definition sdk_sync (c : Sdk) : Task unit :=
  fun s =>
    let k := sdk_calls s in
    let ok := negb (sdk_fails env k) in
    let s' := mkState (self s) (fs s) (in_backup_task s) (db_calls s)
                      (S k) (suspensions s) (clock_reads s)
                      (next_app s) (next_task s) (live_tasks s)
                      (receiving s) (trace s ++ [EvSdk c ok]) in
    if ok then (Ret tt, s') else (Raise TransportError, s').

(** An awaited call of the SDK. *)
Definition sdk (c : Sdk) : Task unit := suspend ;; sdk_sync c.

(** [await asyncio.sleep(seconds)] *)
Definition sleep (seconds : Z) : Task unit :=
  event (EvSleep seconds) ;; suspend.

(** [datetime.now().strftime('%Y%m%d_%H%M%S')] *)
Definition strftime : Task string :=
  fun s =>
    (Ret (strftime_now env (clock_reads s)),
     mkState (self s) (fs s) (in_backup_task s) (db_calls s) (sdk_calls s)
             (suspensions s) (S (clock_reads s)) (next_app s) (next_task s)
             (live_tasks s) (receiving s) (trace s)).

(** *** Settings *)

(** [TelegramBot.load_settings] *)
Definition load_settings : Task unit :=
  k <- execute SelectSettings ;;
  b <- get_self ;;
  put_self (with_settings (telegram_row env k) b).

(** *** The scheduler task handle *)

(** [self.backup_task = asyncio.create_task(self._backup_loop())] *)
Definition create_task : Task unit :=
  fun s =>
    let t := next_task s in
    (Ret tt,
     mkState (with_backup_task (Some t) (self s)) (fs s) (in_backup_task s)
             (db_calls s) (sdk_calls s) (suspensions s) (clock_reads s)
             (next_app s) (S t) (live_tasks s ++ [t]) (receiving s)
             (trace s ++ [EvCreateTask t])).

(** [task.cancel()] and [await task] with [CancelledError] passed over:
    when the await returns the task has ended (see
    [backup_loop_cancel_ends] for the loop's side of this). *)
Definition cancel_and_await (t : nat) : Task unit :=
  fun s =>
    (Ret tt,
     emit (EvCancelTask t)
          (set_live_tasks (filter (fun x => negb (Nat.eqb x t)) (live_tasks s)) s)).

(** [TelegramBot.stop_backup_task] *)
Definition stop_backup_task : Task unit :=
  b <- get_self ;;
  match backup_task b with
  | Some t =>
      cancel_and_await t ;;
      b <- get_self ;;
      put_self (with_backup_task None b) ;;
      log Info "Automatic backup task stopped"
  | None => ret tt
  end.

(** [TelegramBot.start_backup_task] *)
Definition start_backup_task : Task unit :=
  stop_backup_task ;;
  load_settings ;;
  b <- get_self ;;
  if (backup_enabled b && truthy_list (admin_ids b))%bool then
    create_task ;;
    log Info "Automatic backup task started"
  else ret tt.

(** *** The session *)

(** [await self.application.updater.stop()]: the request ends the
    polling of the application; a raise reports an error of the shutdown
    itself. *)
Definition updater_stop (a : nat) : Task unit :=
  (fun s => (Ret tt,
             set_receiving (filter (fun x => negb (Nat.eqb x a)) (receiving s)) s)) ;;
  sdk (UpdaterStop a).

(** [TelegramBot.stop] *)
Definition stop : Task unit :=
  stop_backup_task ;;
  b <- get_self ;;
  match application b with
  | Some a =>
      try_finally
        (try_except
           ((if updater_running a then updater_stop (app_id a) else ret tt) ;;
            sdk (AppStop (app_id a)) ;;
            sdk (AppShutdown (app_id a)))
           (fun _ => log Warning "Error stopping Telegram bot"))
        (b <- get_self ;;
         put_self (with_application None b) ;;
         log Info "Telegram bot stopped")
  | None => ret tt
  end.

(** [self.application = Application.builder().token(self.bot_token).build()] *)
Definition build_application : Task nat :=
  a <- (fun s =>
          (Ret (next_app s),
           mkState (self s) (fs s) (in_backup_task s) (db_calls s)
                   (sdk_calls s) (suspensions s) (clock_reads s)
                   (S (next_app s)) (next_task s) (live_tasks s)
                   (receiving s) (trace s))) ;;
  sdk_sync (Build a) ;;
  b <- get_self ;;
  put_self (with_application (Some (mkApplication a false)) b) ;;
  ret a.

(** [self.application.add_handler(...)] *)
Definition add_handler (a : nat) (name : string) : Task unit :=
  event (EvSdk (AddHandler a name) true).

(** [await self.application.updater.start_polling(drop_pending_updates=True)];
    once it has returned the updater is running. *)
Definition start_polling (a : nat) : Task unit :=
  sdk (StartPolling a true) ;;
  b <- get_self ;;
  put_self (with_application (Some (mkApplication a true)) b) ;;
  fun s => (Ret tt, set_receiving (receiving s ++ [a]) s).

(** [TelegramBot.start] *)
Definition start : Task bool :=
  if negb (TELEGRAM_AVAILABLE env) then
    log Error "python-telegram-bot not available. Cannot start bot." ;;
    ret false
  else
    load_settings ;;
    b <- get_self ;;
    if (negb (enabled b) || negb (truthy_opt_string (bot_token b)))%bool then
      log Info "Telegram bot not enabled or token not set" ;;
      ret false
    else
      stop ;;
      try_except
        (a <- build_application ;;
         add_handler a "start" ;;
         add_handler a "help" ;;
         add_handler a "nodes" ;;
         add_handler a "tunnels" ;;
         add_handler a "status" ;;
         add_handler a "backup" ;;
         add_handler a "callback_query" ;;
         sdk (Initialize a) ;;
         sdk (AppStart a) ;;
         start_polling a ;;
         start_backup_task ;;
         log Info "Telegram bot started successfully" ;;
         ret true)
        (fun _ =>
           log Error "Failed to start Telegram bot" ;;
           stop ;;
           ret false).

(** *** Filesystem calls *)

(** Where a [pathlib] path points: relative paths start at the working
    directory. *)
Definition resolve (p : PyPath) : Path :=
  if is_absolute p then parts p else cwd env ++ parts p.

(** [p / name] *)
Definition child (p : PyPath) (name : string) : PyPath :=
  mkPyPath (is_absolute p) (parts p ++ [name]).

(** [p.exists()] *)
Definition path_exists (p : PyPath) : Task bool :=
  fun s => (Ret (fs_exists (resolve p) (fs s)), s).

(** [p.mkdir(exist_ok=True)] *)
Definition mkdir_exist_ok (p : PyPath) : Task unit :=
  d <- get_fs ;;
  match fs_lookup (resolve p) d with
  | Some (Dir _) => ret tt
  | Some (File _) => raise OSError
  | None =>
      match fs_put (resolve p) (Dir []) d with
      | Some d' => put_fs d'
      | None => raise OSError
      end
  end.

(** [shutil.copy2(src, dst)]: [src] has to be a readable file; a [dst]
    that is a directory receives the file under the name of [src]. *)
Definition copy2 (src dst : PyPath) : Task unit :=
  d <- get_fs ;;
  match fs_lookup (resolve src) d with
  | Some (File true) =>
      let target :=
        if fs_is_dir (resolve dst) d
        then resolve dst ++ [last (parts src) ""]
        else resolve dst in
      if fs_is_dir target d then raise OSError
      else match fs_put target (File true) d with
           | Some d' => put_fs d'
           | None => raise OSError
           end
  | _ => raise OSError
  end.

(** [shutil.copytree(src, dst, dirs_exist_ok=True)] *)
Definition copytree (src dst : PyPath) : Task unit :=
  d <- get_fs ;;
  match fs_lookup (resolve src) d with
  | Some (Dir es) =>
      match merge_tree (Dir es) (fs_lookup (resolve dst) d) with
      | Some m =>
          match fs_put (resolve dst) m d with
          | Some d' => put_fs d'
          | None => raise OSError
          end
      | None => raise OSError
      end
  | _ => raise OSError
  end.

(** [p.iterdir()]: the names in a directory. *)
Definition iterdir (p : PyPath) : Task (list string) :=
  d <- get_fs ;;
  match fs_lookup (resolve p) d with
  | Some (Dir es) => ret (map fst es)
  | _ => raise OSError
  end.

(** [item.is_file()] *)
Definition is_file (p : PyPath) : Task bool :=
  fun s => (Ret (fs_is_file (resolve p) (fs s)), s).

(** [with zipfile.ZipFile(backup_file, 'w', ZIP_DEFLATED) as zipf:] every
    file found by [os.walk(backup_dir)] is written under its path
    relative to [backup_dir]. *)
Definition zip_tree (backup_file : Path) (backup_dir : PyPath) : Task unit :=
  d <- get_fs ;;
  (if fs_is_dir backup_file d then raise OSError
   else match fs_put backup_file (File true) d with
        | Some d' => put_fs d'
        | None => raise OSError
        end) ;;
  match fs_lookup (resolve backup_dir) d with
  | Some (Dir es) =>
      if forallb snd (walk (Dir es)) then ret tt else raise OSError
  | _ => ret tt
  end.

(** [shutil.rmtree(p)] *)
Definition rmtree (p : PyPath) : Task unit :=
  d <- get_fs ;;
  match fs_lookup (resolve p) d with
  | Some (Dir _) =>
      match fs_del (resolve p) d with
      | Some d' => put_fs d'
      | None => raise OSError
      end
  | _ => raise OSError
  end.

(** [os.path.exists(path)] *)
Definition os_path_exists (p : Path) : Task bool :=
  fun s => (Ret (fs_exists p (fs s)), s).

(** [os.remove(path)] *)
Definition os_remove (p : Path) : Task unit :=
  d <- get_fs ;;
  if fs_is_file p d then
    match fs_del p d with
    | Some d' => put_fs d' ;; event (EvRemove p)
    | None => raise OSError
    end
  else raise OSError.

(** [with open(path, 'rb') as f:] *)
Definition open_rb (p : Path) : Task unit :=
  d <- get_fs ;;
  match fs_lookup p d with
  | Some (File true) => ret tt
  | _ => raise OSError
  end.

(** *** The backup producer *)

Definition backup_dir : PyPath := mkPyPath true ["tmp"; "smite_backup"].

(** [if src.exists(): shutil.copy2(src, dst)] *)
Definition copy_if_exists (src dst : PyPath) : Task unit :=
  e <- path_exists src ;;
  if e then copy2 src dst else ret tt.

(** One of the four certificate settings: the path is made absolute
    against the working directory, and an existing file is copied to
    [backup_dir / sub / name]. *)
Definition copy_cert (setting : PyPath) (sub name : string) : Task unit :=
  let p := if is_absolute setting then setting
           else mkPyPath true (cwd env ++ parts setting) in
  e <- path_exists p ;;
  if e then
    mkdir_exist_ok (child backup_dir sub) ;;
    copy2 p (child (child backup_dir sub) name)
  else ret tt.

Definition config_suffixes : list string := [".json"; ".yaml"; ".toml"].

(** The first part of [create_backup]'s [try] block: every source that
    exists is copied below the staging directory. *)
Definition stage_sources : Task unit :=
  mkdir_exist_ok backup_dir ;;
  copy_if_exists (mkPyPath false ["data"; "smite.db"])
                 (child backup_dir "smite.db") ;;
  copy_if_exists (mkPyPath false [".env"]) (child backup_dir ".env") ;;
  copy_if_exists (mkPyPath false ["docker-compose.yml"])
                 (child backup_dir "docker-compose.yml") ;;
  (let certs_dir := mkPyPath false ["certs"] in
   e <- path_exists certs_dir ;;
   if e then copytree certs_dir (child backup_dir "certs") else ret tt) ;;
  copy_cert (node_cert_path env) "node_certs" "ca.crt" ;;
  copy_cert (node_key_path env) "node_certs" "ca.key" ;;
  copy_cert (node_server_cert_path env) "server_certs" "ca-server.crt" ;;
  copy_cert (node_server_key_path env) "server_certs" "ca-server.key" ;;
  (let data_dir := mkPyPath false ["data"] in
   e <- path_exists data_dir ;;
   if e then
     mkdir_exist_ok (child backup_dir "data") ;;
     items <- iterdir data_dir ;;
     for_each items (fun name =>
       f <- is_file (child data_dir name) ;;
       if (f && existsb (String.eqb (suffix name)) config_suffixes)%bool
       then copy2 (child data_dir name)
                  (child (child backup_dir "data") name)
       else ret tt)
   else ret tt).

(** [backup_file = f"/tmp/smite_backup_{timestamp}.zip"] *)
Definition backup_file_at (timestamp : string) : Path :=
  ["tmp"; ("smite_backup_" ++ timestamp ++ ".zip")%string].

(** The second part of the [try] block: the staging directory is
    compressed into the archive and then removed. *)
Definition archive_staging : Task (option Path) :=
  timestamp <- strftime ;;
  let backup_file := backup_file_at timestamp in
  zip_tree backup_file backup_dir ;;
  rmtree backup_dir ;;
  ret (Some backup_file).

(** [TelegramBot.create_backup] *)
Definition create_backup : Task (option Path) :=
  event EvCreateBackup ;;
  try_except
    (stage_sources ;; archive_staging)
    (fun _ =>
       log Error "Error creating backup" ;;
       ret None).

(** *** The backup scheduler *)

(** The body of [for admin_id_str in self.admin_ids:] in [_backup_loop]. *)
Definition send_backup_to (backup_path : Path) (admin_id_str : string)
  : Task unit :=
  try_except
    (match py_int admin_id_str with
     | Some admin_id =>
         open_rb backup_path ;;
         sdk (SendDocument admin_id backup_path)
     | None => raise ValueError
     end)
    (fun _ => log Error "Failed to send backup to admin").

(** The [try] block of a cycle: produce, dispatch, delete. *)
Definition produce_and_dispatch : Task unit :=
  try_except
    (backup_path <- create_backup ;;
     b <- get_self ;;
     match backup_path, application b with
     | Some p, Some _ =>
         for_each (admin_ids b) (send_backup_to p) ;;
         e <- os_path_exists p ;;
         (if e then os_remove p else ret tt) ;;
         log Info "Automatic backup sent successfully"
     | _, _ => ret tt
     end)
    (fun _ => log Error "Error in automatic backup").

(** The body of [while True:] in [_backup_loop]; a normal return is the
    start of the next iteration. *)
Definition backup_cycle : Task unit :=
  load_settings ;;
  b <- get_self ;;
  if (negb (backup_enabled b) || negb (truthy_list (admin_ids b)))%bool then
    sleep 60
  else
    sleep (sleep_seconds b) ;;
    b <- get_self ;;
    if negb (backup_enabled b) then ret tt
    else produce_and_dispatch.

(** [TelegramBot._backup_loop], the loop unfolded at most [fuel] times.
    [Ret tt] is the return after the outer [except Exception], [Cancel]
    the re-raised cancellation, [Timeout] a loop that is still running. *)
Definition _backup_loop (fuel : nat) : Task unit :=
  try_except_cancelled
    (while_true fuel backup_cycle)
    (log Info "Backup loop cancelled" ;; fun s => (Cancel, s))
    (fun _ => log Error "Backup loop error").

(** *** Command and callback handlers *)

Definition deny (u : Update) : Task unit :=
  sdk (ReplyText (chat_id u) MsgDenied).

(** [TelegramBot.cmd_start] *)
Definition cmd_start (u : Update) : Task unit :=
  b <- get_self ;;
  if negb (is_admin b (effective_user_id u)) then deny u
  else sdk (ReplyText (chat_id u) MsgWelcome).

(** [TelegramBot.cmd_help] *)
Definition cmd_help (u : Update) : Task unit :=
  b <- get_self ;;
  if negb (is_admin b (effective_user_id u)) then deny u
  else sdk (ReplyText (chat_id u) MsgHelp).

(** The replies shared by a command and its button: [send] is
    [update.message.reply_text] or [query.edit_message_text]. *)
Definition list_nodes (send : Msg -> Task unit) : Task unit :=
  execute SelectNodes ;;
  match nodes_table env with
  | [] => send MsgNoNodes
  | rows => send (MsgNodes rows)
  end.

Definition list_tunnels (send : Msg -> Task unit) : Task unit :=
  execute SelectTunnels ;;
  match tunnels_table env with
  | [] => send MsgNoTunnels
  | rows => send (MsgTunnels rows)
  end.

Definition count_active {A} (status : A -> string) (rows : list A) : nat :=
  length (filter (fun r => String.eqb (status r) "active") rows).

Definition show_status (send : Msg -> Task unit) : Task unit :=
  execute SelectNodes ;;
  execute SelectTunnels ;;
  send (MsgStatus (count_active node_status (nodes_table env))
                  (length (nodes_table env))
                  (count_active tunnel_status (tunnels_table env))
                  (length (tunnels_table env))).

(** [TelegramBot.cmd_nodes] *)
Definition cmd_nodes (u : Update) : Task unit :=
  b <- get_self ;;
  if negb (is_admin b (effective_user_id u)) then deny u
  else list_nodes (fun m => sdk (ReplyText (chat_id u) m)).

(** [TelegramBot.cmd_tunnels] *)
Definition cmd_tunnels (u : Update) : Task unit :=
  b <- get_self ;;
  if negb (is_admin b (effective_user_id u)) then deny u
  else list_tunnels (fun m => sdk (ReplyText (chat_id u) m)).

(** [TelegramBot.cmd_status] *)
Definition cmd_status (u : Update) : Task unit :=
  b <- get_self ;;
  if negb (is_admin b (effective_user_id u)) then deny u
  else show_status (fun m => sdk (ReplyText (chat_id u) m)).

(** [TelegramBot.cmd_backup] *)
Definition cmd_backup (u : Update) : Task unit :=
  b <- get_self ;;
  if negb (is_admin b (effective_user_id u)) then deny u
  else
    sdk (ReplyText (chat_id u) MsgCreatingBackup) ;;
    try_except
      (backup_path <- create_backup ;;
       match backup_path with
       | Some p =>
           open_rb p ;;
           sdk (ReplyDocument (chat_id u) p) ;;
           os_remove p
       | None => sdk (ReplyText (chat_id u) MsgBackupFailed)
       end)
      (fun _ =>
         log Error "Error creating backup" ;;
         sdk (ReplyText (chat_id u) MsgBackupError)).

(** [TelegramBot.show_node_info] *)
Definition show_node_info (u : Update) (id : string) : Task unit :=
  execute (SelectNode id) ;;
  match find (fun r => String.eqb (node_id r) id) (nodes_table env) with
  | None => sdk (EditMessageText (chat_id u) MsgNodeNotFound)
  | Some row => sdk (EditMessageText (chat_id u) (MsgNodeInfo row))
  end.

(** [TelegramBot.show_tunnel_info] *)
Definition show_tunnel_info (u : Update) (id : string) : Task unit :=
  execute (SelectTunnel id) ;;
  match find (fun r => String.eqb (tunnel_id r) id) (tunnels_table env) with
  | None => sdk (EditMessageText (chat_id u) MsgTunnelNotFound)
  | Some row => sdk (EditMessageText (chat_id u) (MsgTunnelInfo row))
  end.

(** [TelegramBot.cmd_nodes_callback] *)
Definition cmd_nodes_callback (u : Update) : Task unit :=
  list_nodes (fun m => sdk (EditMessageText (chat_id u) m)).

(** [TelegramBot.cmd_tunnels_callback] *)
Definition cmd_tunnels_callback (u : Update) : Task unit :=
  list_tunnels (fun m => sdk (EditMessageText (chat_id u) m)).

(** [TelegramBot.cmd_status_callback] *)
Definition cmd_status_callback (u : Update) : Task unit :=
  show_status (fun m => sdk (EditMessageText (chat_id u) m)).

(** [TelegramBot.cmd_backup_callback] *)
Definition cmd_backup_callback (u : Update) : Task unit :=
  sdk (EditMessageText (chat_id u) MsgCreatingBackup) ;;
  try_except
    (backup_path <- create_backup ;;
     match backup_path with
     | Some p =>
         open_rb p ;;
         sdk (ReplyDocument (chat_id u) p) ;;
         os_remove p ;;
         sdk (EditMessageText (chat_id u) MsgBackupSent)
     | None => sdk (EditMessageText (chat_id u) MsgBackupFailed)
     end)
    (fun _ =>
       log Error "Error creating backup" ;;
       sdk (EditMessageText (chat_id u) MsgBackupError)).

(** [TelegramBot.handle_callback] *)
Definition handle_callback (u : Update) : Task unit :=
  sdk (Answer (chat_id u)) ;;
  b <- get_self ;;
  if negb (is_admin b (effective_user_id u)) then
    sdk (EditMessageText (chat_id u) MsgDenied)
  else
    let d := data u in
    if String.prefix "node_info_" d then
      show_node_info u (remove_all "node_info_" O d)
    else if String.prefix "tunnel_info_" d then
      show_tunnel_info u (remove_all "tunnel_info_" O d)
    else if String.eqb d "cmd_nodes" then cmd_nodes_callback u
    else if String.eqb d "cmd_tunnels" then cmd_tunnels_callback u
    else if String.eqb d "cmd_backup" then cmd_backup_callback u
    else if String.eqb d "cmd_status" then cmd_status_callback u
    else ret tt.

End Program.

(** The entry points that the SDK dispatches updates to: the six
    commands registered by [start] and the callback-query handler. *)
Inductive Handler : Type :=
| HStart | HHelp | HNodes | HTunnels | HStatus | HBackup | HCallback.

Definition run_handler (env : Env) (h : Handler) (u : Update) : Task unit :=
  match h with
  | HStart => cmd_start env u
  | HHelp => cmd_help env u
  | HNodes => cmd_nodes env u
  | HTunnels => cmd_tunnels env u
  | HStatus => cmd_status env u
  | HBackup => cmd_backup env u
  | HCallback => handle_callback env u
  end.

(* ================================================================== *)
(** ** Vocabulary of the statements *)

(** [wp m Q s]: running [m] from [s] ends in an outcome and a state
    related by [Q]. *)
Definition wp {A} (m : Task A) (Q : Outcome A -> State -> Prop) (s : State)
  : Prop :=
  Q (fst (m s)) (snd (m s)).

(** What [bind] passes on when its first part does not return. *)
Definition after {A B} (k : A -> State -> Prop)
           (Q : Outcome B -> State -> Prop) (o : Outcome A) (s : State)
  : Prop :=
  match o with
  | Ret a => k a s
  | Raise e => Q (Raise e) s
  | Cancel => Q Cancel s
  | Timeout => Q Timeout s
  end.

(** The events that a run appended to the trace. *)
Definition appended (s s' : State) (evs : list Event) : Prop :=
  trace s' = trace s ++ evs.

(** The session part of the state: the handles of the bot and the tasks
    and applications alive in the process. *)
Definition same_session (s s' : State) : Prop :=
  application (self s') = application (self s)
  /\ backup_task (self s') = backup_task (self s)
  /\ live_tasks s' = live_tasks s
  /\ receiving s' = receiving s
  /\ next_task s' = next_task s
  /\ next_app s' = next_app s
  /\ in_backup_task s' = in_backup_task s.

Definition binds_or_spawns (e : Event) : bool :=
  match e with
  | EvSdk _ _ | EvCreateTask _ | EvCancelTask _ => true
  | _ => false
  end.


Definition calls_repository_or_producer (e : Event) : bool :=
  match e with
  | EvQuery _ _ | EvCreateBackup => true
  | _ => false
  end.

(** The events of a handler that turns an update down. *)
Definition denial (h : Handler) (u : Update) : list Event :=
  match h with
  | HCallback =>
      [EvSdk (Answer (chat_id u)) true;
       EvSdk (EditMessageText (chat_id u) MsgDenied) true]
  | _ => [EvSdk (ReplyText (chat_id u) MsgDenied) true]
  end.

(** The calls that unbind an application, in the reverse order of its
    binding: stop receiving updates (when the updater runs), stop the
    application, release its resources. *)
Definition teardown_calls (a : Application) : list Sdk :=
  (if updater_running a then [UpdaterStop (app_id a)] else [])
  ++ [AppStop (app_id a); AppShutdown (app_id a)].

(** Calls made one after the other, the first of them being the [k]-th
    SDK call of the run, up to and including the first that raises; the
    flag tells whether all of them returned. *)
Fixpoint attempts (fails : nat -> bool) (k : nat) (cs : list Sdk)
  : list Event * bool :=
  match cs with
  | [] => ([], true)
  | c :: cs' =>
      if fails k then ([EvSdk c false], false)
      else let (evs, ok) := attempts fails (S k) cs' in
           (EvSdk c true :: evs, ok)
  end.

(** What an orderly [stop] shows: the scheduler task is cancelled and
    awaited first, then the transport is torn down, an error of the
    teardown is logged as a warning, and the handle is cleared last. *)
Definition stop_events (env : Env) (s : State) : list Event :=
  match backup_task (self s) with
  | Some t => [EvCancelTask t; EvLog Info "Automatic backup task stopped"]
  | None => []
  end
  ++
  match application (self s) with
  | Some a =>
      let (evs, ok) :=
        attempts (sdk_fails env) (sdk_calls s) (teardown_calls a) in
      evs
      ++ (if ok then [] else [EvLog Warning "Error stopping Telegram bot"])
      ++ [EvLog Info "Telegram bot stopped"]
  | None => []
  end.

(** A run that left the bot object, the counters of the oracles and the
    tasks and applications alone. *)
Definition steady (s s' : State) : Prop :=
  self s' = self s
  /\ in_backup_task s' = in_backup_task s
  /\ db_calls s' = db_calls s
  /\ sdk_calls s' = sdk_calls s
  /\ suspensions s' = suspensions s
  /\ next_app s' = next_app s
  /\ next_task s' = next_task s
  /\ live_tasks s' = live_tasks s
  /\ receiving s' = receiving s.

(** A run that touched nothing but the filesystem and the clock. *)
Definition quiet (s s' : State) : Prop :=
  steady s s' /\ trace s' = trace s.

(** Two paths that part ways at some component. *)
Fixpoint diverge (p q : Path) : bool :=
  match p, q with
  | a :: p', b :: q' => if String.eqb a b then diverge p' q' else true
  | _, _ => false
  end.

Definition returns_or_raises {A} (o : Outcome A) : Prop :=
  match o with
  | Ret _ | Raise _ => True
  | Cancel | Timeout => False
  end.

(** Synchronous filesystem code: it returns or raises, and is [quiet]. *)
Definition fs_task {A} (m : Task A) : Prop :=
  forall s, wp m (fun o s' => returns_or_raises o /\ quiet s s') s.

(** The chats to which the scheduler tried to send a document, and the
    files that were unlinked, in the order of the trace. *)
Definition sends (evs : list Event) : list Z :=
  flat_map (fun e => match e with
                     | EvSdk (SendDocument n _) _ => [n]
                     | _ => []
                     end) evs.

Definition removes (evs : list Event) : list Path :=
  flat_map (fun e => match e with EvRemove p => [p] | _ => [] end) evs.

(** The identities of a list that [int()] accepts. *)
Definition valid_ids (ids : list string) : list Z :=
  flat_map (fun i => match py_int i with Some n => [n] | None => [] end) ids.

(** Whether a settings row asks for automatic backups. *)
Definition row_backup_enabled (r : option SettingValue) : bool :=
  match r with
  | Some v => match sv_backup_enabled v with Some x => x | None => false end
  | None => false
  end.

(** The events of a scheduler that stays idle: settings queries, sleeps
    of 60 seconds and log lines. *)
Definition idle_event (e : Event) : bool :=
  match e with
  | EvQuery SelectSettings _ => true
  | EvSleep z => Z.eqb z 60
  | EvLog _ _ => true
  | _ => false
  end.

(** A normal end of an iteration, or a cancellation that the environment
    really delivered. *)
Definition continues_or_cancelled (env : Env) (o : Outcome unit) : Prop :=
  o = Ret tt \/ (o = Cancel /\ exists k, cancel_at env k = true).

(** What a sending step leaves alone. *)
Definition same_files (s s' : State) : Prop :=
  fs s' = fs s /\ self s' = self s /\ in_backup_task s' = in_backup_task s.

(** The events of one sending step that was not cancelled: the document
    went out, or the failure was written to the error log. *)
Definition sent_or_logged (p : Path) (evs : list Event) : Prop :=
  (exists n, evs = [EvSdk (SendDocument n p) true])
  \/ (exists n, evs = [EvSdk (SendDocument n p) false;
                       EvLog Error "Failed to send backup to admin"])
  \/ evs = [EvLog Error "Failed to send backup to admin"].

(* ================================================================== *)
(** ** Sample inputs *)

Definition sample_settings : SettingValue :=
  mkSettingValue (Some true) (Some "123:abc") (Some ["11"; "22"; "33"])
                 (Some true) (Some 2) (Some "hours").

Definition disabled_settings : SettingValue :=
  mkSettingValue (Some false) (Some "123:abc") (Some ["11"; "22"; "33"])
                 (Some false) (Some 2) (Some "hours").

(** An environment with the SDK installed, the panel running in [/app]
    and the given answers of the database, the SDK and the canceller. *)
Definition sample_env (db_down : nat -> bool) (row : nat -> option SettingValue)
           (sdk_down : nat -> bool) (cancel : nat -> bool) : Env :=
  mkEnv true db_down row
        [mkNodeRow "n1" "edge" "active"] [mkTunnelRow "t1" "main" "active"]
        sdk_down cancel (fun _ => "20240101_000000") ["app"]
        (mkPyPath false ["certs"; "ca.crt"]) (mkPyPath false ["certs"; "ca.key"])
        (mkPyPath false ["certs"; "ca-server.crt"])
        (mkPyPath false ["certs"; "ca-server.key"]).

Definition never : nat -> bool := fun _ => false.
Definition always : nat -> bool := fun _ => true.

(** Everything works. *)
Definition calm_env : Env := sample_env never (fun _ => Some sample_settings) never never.

(** The panel's files on disk. *)
Definition sample_disk : Node :=
  Dir [("tmp", Dir []);
       ("app", Dir [("data", Dir [("smite.db", File true);
                                  ("panel.json", File true);
                                  ("notes.txt", File true)]);
                    (".env", File true);
                    ("certs", Dir [("ca.crt", File true)])])].

(** A disk on which the node certificate path is a directory, as a
    container runtime leaves it when the file to mount was missing. *)
Definition mounted_dir_disk : Node :=
  Dir [("tmp", Dir []);
       ("app", Dir [("data", Dir [("smite.db", File true)]);
                    ("certs", Dir [("ca.crt", Dir [])])])].

(** The same disk with a database file that cannot be read. *)
Definition locked_disk : Node :=
  Dir [("tmp", Dir []);
       ("app", Dir [("data", Dir [("smite.db", File false)]);
                    (".env", File true)])].

(** A bot with a bound application and three administrators, running
    as the backup task. *)
Definition running_bot : TelegramBot :=
  mkBot (Some (mkApplication O true)) true (Some "123:abc")
        ["11"; "22"; "33"] (Some O) true 2 "hours".

Definition task_state (disk : Node) : State :=
  mkState running_bot disk true 0 0 0 0 1 1 [O] [O] [].

Definition session_state (disk : Node) : State :=
  mkState running_bot disk false 0 0 0 0 1 1 [O] [O] [].

(** The database answers the first settings query and fails the second. *)
Definition flaky_db_env : Env :=
  sample_env (fun k => Nat.eqb k 1) (fun _ => Some sample_settings) never never.

(** Automatic backups are switched off in the settings. *)
Definition backups_off_env : Env :=
  sample_env never (fun _ => Some disabled_settings) never never.

(** The second SDK call of the run fails. *)
Definition second_call_fails_env : Env :=
  sample_env never (fun _ => Some sample_settings) (fun k => Nat.eqb k 1) never.


(** A request from somebody who is not an administrator. *)
Definition stranger_update : Update := mkUpdate 99 99 "cmd_backup".

Definition sample_artifact : Path := backup_file_at "20240101_000000".


(** What holds of a session between two calls of its interface: the code
    runs outside the backup task, the scheduler tasks alive are the one
    the bot holds, and the applications polling for updates are the one
    the bot holds, once its updater runs. *)
Definition session_inv (s : State) : Prop :=
  in_backup_task s = false
  /\ live_tasks s = match backup_task (self s) with
                    | Some t => [t]
                    | None => []
                    end
  /\ receiving s = match application (self s) with
                   | Some a => if updater_running a then [app_id a] else []
                   | None => []
                   end.

(** The trace only grows. *)
Definition grows (s s' : State) : Prop := exists evs, appended s s' evs.

(** The handles and the live tasks and applications are as before. *)
Definition keeps (s s' : State) : Prop :=
  application (self s') = application (self s)
  /\ backup_task (self s') = backup_task (self s)
  /\ live_tasks s' = live_tasks s
  /\ receiving s' = receiving s
  /\ in_backup_task s' = in_backup_task s.

(** Session code that returns or raises and [keeps] the session. *)
Definition calm {A} (m : Task A) : Prop :=
  forall s, in_backup_task s = false ->
            wp m (fun o s' => returns_or_raises o /\ keeps s s' /\ grows s s') s.

(** The session while [start] binds application [a]: nothing polls and
    no scheduler task lives yet; [s0] is the state in which the binding
    began. *)
Definition binding (s0 : State) (a : nat) (s : State) : Prop :=
  in_backup_task s = false
  /\ live_tasks s = []
  /\ receiving s = []
  /\ backup_task (self s) = None
  /\ application (self s) = Some (mkApplication a false)
  /\ exists rest, appended s0 s (EvSdk (Build a) true :: rest).

(** How the [try] block of [start] may end, counted from the state [s0]
    in which it began. *)
Definition bound_or_failed (s0 : State) (o : Outcome bool) (s : State)
  : Prop :=
  match o with
  | Ret b =>
      session_inv s /\ grows s0 s
      /\ (b = true ->
          exists a rest,
            application (self s) = Some (mkApplication a true)
            /\ appended s0 s (EvSdk (Build a) true :: rest))
  | Raise _ => session_inv s /\ grows s0 s
  | Cancel | Timeout => False
  end.

(* ================================================================== *)
(** ** Vocabulary of the further statements *)

(** The settings of a bot that found no settings row, with the handles
    of bot [b]. *)
Definition default_settings (b : TelegramBot) : TelegramBot :=
  mkBot (application b) false None [] (backup_task b) false 60 "minutes".

(** A settings object without any key. *)
Definition empty_object : SettingValue :=
  mkSettingValue None None None None None None.

(** The tasks alive are the one the bot holds. *)
Definition tasks_held (s : State) : Prop :=
  live_tasks s = match backup_task (self s) with
                 | Some t => [t]
                 | None => []
                 end.

(** Events of the database and of the SDK. *)
Definition is_external_call (e : Event) : bool :=
  match e with
  | EvQuery _ _ | EvSdk _ _ => true
  | _ => false
  end.

(** The database is down. *)
Definition db_down_env : Env :=
  sample_env always (fun _ => Some sample_settings) never never.

(** The settings row is missing. *)
Definition no_row_env : Env := sample_env never (fun _ => None) never never.

(** The [try] block of [start]. *)
Definition start_block (env : Env) : Task bool :=
  a <- build_application env ;;
  add_handler a "start" ;;
  add_handler a "help" ;;
  add_handler a "nodes" ;;
  add_handler a "tunnels" ;;
  add_handler a "status" ;;
  add_handler a "backup" ;;
  add_handler a "callback_query" ;;
  sdk env (Initialize a) ;;
  sdk env (AppStart a) ;;
  start_polling env a ;;
  start_backup_task env ;;
  log Info "Telegram bot started successfully" ;;
  ret true.

(** The [except] clause of [start]. *)
Definition start_cleanup (env : Env) (e : Exc) : Task bool :=
  log Error "Failed to start Telegram bot" ;;
  stop env ;;
  ret false.

(** The SDK calls by which [start] binds application [a], in order. *)
Definition binding_events (a : nat) : list Event :=
  [EvSdk (Build a) true;
   EvSdk (AddHandler a "start") true;
   EvSdk (AddHandler a "help") true;
   EvSdk (AddHandler a "nodes") true;
   EvSdk (AddHandler a "tunnels") true;
   EvSdk (AddHandler a "status") true;
   EvSdk (AddHandler a "backup") true;
   EvSdk (AddHandler a "callback_query") true;
   EvSdk (Initialize a) true;
   EvSdk (AppStart a) true;
   EvSdk (StartPolling a true) true].

(** The session is stopped: the bot holds no handle, nothing is alive. *)
Definition stopped (s : State) : Prop :=
  in_backup_task s = false
  /\ live_tasks s = []
  /\ receiving s = []
  /\ backup_task (self s) = None
  /\ application (self s) = None.

(** The state after an SDK call that returned. *)
Definition sdk_done (c : Sdk) (s : State) : State :=
  mkState (self s) (fs s) (in_backup_task s) (db_calls s) (S (sdk_calls s))
          (suspensions s) (clock_reads s) (next_app s) (next_task s)
          (live_tasks s) (receiving s) (trace s ++ [EvSdk c true]).

(** Whether a bot with these settings gets a scheduler task. *)
Definition wants_scheduler (b : TelegramBot) : bool :=
  (backup_enabled b && truthy_list (admin_ids b))%bool.

(** The state after a settings query that returned. *)
Definition loaded (env : Env) (s : State) : State :=
  mkState (with_settings (telegram_row env (db_calls s)) (self s)) (fs s)
          (in_backup_task s) (S (db_calls s)) (sdk_calls s) (suspensions s)
          (clock_reads s) (next_app s) (next_task s) (live_tasks s)
          (receiving s) (trace s ++ [EvQuery SelectSettings true]).

(** The state after the application was built. *)
Definition built (s : State) : State :=
  mkState (with_application (Some (mkApplication (next_app s) false)) (self s))
          (fs s) (in_backup_task s) (db_calls s) (S (sdk_calls s))
          (suspensions s) (clock_reads s) (S (next_app s)) (next_task s)
          (live_tasks s) (receiving s)
          (trace s ++ [EvSdk (Build (next_app s)) true]).

(** The state after the updater began to poll for application [a]. *)
Definition polling_started (a : nat) (s : State) : State :=
  mkState (with_application (Some (mkApplication a true)) (self s))
          (fs s) (in_backup_task s) (db_calls s) (S (sdk_calls s))
          (suspensions s) (clock_reads s) (next_app s) (next_task s)
          (live_tasks s) (receiving s ++ [a])
          (trace s ++ [EvSdk (StartPolling a true) true]).

(** The canceller strikes at the second suspension of the task. *)
Definition cancel_in_sleep_env : Env :=
  sample_env never (fun _ => Some sample_settings) never (fun k => Nat.eqb k 1).

(** A bot with administrators and backups enabled but no application. *)
Definition unbound_bot : TelegramBot :=
  mkBot None true (Some "123:abc") ["11"; "22"; "33"] (Some O) true 2 "hours".

Definition unbound_task_state (disk : Node) : State :=
  mkState unbound_bot disk true 0 0 0 0 0 1 [O] [] [].

(** The callback data that the node and tunnel lists put on their
    buttons: [f"node_info_{node.id}"] and [f"tunnel_info_{tunnel.id}"]. *)
Definition node_callback_data (id : string) : string :=
  ("node_info_" ++ id)%string.

Definition tunnel_callback_data (id : string) : string :=
  ("tunnel_info_" ++ id)%string.

(** Whether [pat] occurs somewhere in [s]. *)
Fixpoint occurs (pat s : string) : bool :=
  match s with
  | EmptyString => String.prefix pat EmptyString
  | String _ s' => (String.prefix pat s || occurs pat s')%bool
  end.

(** The commands that a button can carry. *)
Definition button_commands : list string :=
  ["cmd_nodes"; "cmd_tunnels"; "cmd_backup"; "cmd_status"].

(** A button press by administrator 11. *)
Definition admin_button (d : string) : Update := mkUpdate 11 11 d.

(** The bot object, the tasks, the applications and their counters are
    as before. *)
Definition untouched (s s' : State) : Prop :=
  self s' = self s
  /\ live_tasks s' = live_tasks s
  /\ receiving s' = receiving s
  /\ next_task s' = next_task s
  /\ next_app s' = next_app s
  /\ in_backup_task s' = in_backup_task s.

(** Code that, however it ends, leaves them so. *)
Definition inert {A} (m : Task A) : Prop :=
  forall s, untouched s (snd (m s)).




(* ================================================================== *)
(** * Properties *)

(** ** Reasoning about tasks *)



Lemma wp_ret {A} (a : A) Q s : Q (Ret a) s -> wp (ret a) Q s.
Proof. exact (fun H => H). Qed.

Lemma wp_bind {A B} (m : Task A) (k : A -> Task B) Q s :
  wp m (after (fun a => wp (k a) Q) Q) s -> wp (bind m k) Q s.
Proof.
  unfold wp, bind, after. destruct (m s) as [[a | e | | ] s']; simpl; auto.
Qed.

Lemma wp_mono {A} (m : Task A) (Q Q' : Outcome A -> State -> Prop) s :
  wp m Q s -> (forall o s', Q o s' -> Q' o s') -> wp m Q' s.
Proof. unfold wp. auto. Qed.


Lemma wp_try_finally {A} (m : Task A) (f : Task unit) Q s :
  wp m (fun o s' => match o with
                    | Timeout => Q Timeout s'
                    | _ => wp f (fun o' s'' =>
                                   match o' with
                                   | Ret _ => Q o s''
                                   | Raise e => Q (Raise e) s''
                                   | Cancel => Q Cancel s''
                                   | Timeout => Q Timeout s''
                                   end) s'
                    end) s ->
  wp (try_finally m f) Q s.
Proof.
  unfold wp, try_finally.
  destruct (m s) as [[a | e | | ] s']; simpl; auto;
    destruct (f s') as [[[] | e' | | ] s'']; simpl; auto.
Qed.


Lemma appended_refl s : appended s s [].
Proof. unfold appended. now rewrite app_nil_r. Qed.

Lemma appended_trans s1 s2 s3 e1 e2 :
  appended s1 s2 e1 -> appended s2 s3 e2 -> appended s1 s3 (e1 ++ e2).
Proof. unfold appended. intros H1 H2. now rewrite H2, H1, app_assoc. Qed.

(** ** The interval *)




(** ** Frames: what the primitive effects leave alone *)


Lemma same_session_refl s : same_session s s.
Proof. unfold same_session. tauto. Qed.

Lemma same_session_trans s1 s2 s3 :
  same_session s1 s2 -> same_session s2 s3 -> same_session s1 s3.
Proof.
  unfold same_session. intros H1 H2.
  decompose [and] H1. decompose [and] H2. repeat split; congruence.
Qed.

Ltac run :=
  cbv beta iota zeta delta
    [bind ret raise get_self put_self get_fs put_fs log event sleep sdk
     sdk_sync execute suspend emit set_self set_fs set_live_tasks
     set_receiving try_except try_finally try_except_cancelled] in *;
  simpl in *.

Ltac split_oracle :=
  match goal with
  | H : context [if ?c then _ else _] |- _ => destruct c eqn:?
  | |- context [if ?c then _ else _] => destruct c eqn:?
  end.

Ltac run_all := run; repeat (split_oracle; run).

Lemma load_settings_frame env s :
  forall o s1, load_settings env s = (o, s1) ->
    same_session s s1 /\ sdk_calls s1 = sdk_calls s /\ fs s1 = fs s
    /\ exists evs, appended s s1 evs
                   /\ forallb idle_event evs = true
                   /\ (o = Ret tt -> evs = [EvQuery SelectSettings true]).
Proof.
  intros o s1 H. unfold load_settings, same_session, appended in *.
  run_all; inversion H; subst; clear H; simpl;
    (repeat split; try reflexivity; try assumption;
     try (destruct (telegram_row env (db_calls s)); reflexivity));
    try (eexists; split;
         [first [reflexivity | symmetry; apply app_nil_r]
         | split; [reflexivity
                  | intros E; first [reflexivity | discriminate E]]]).
Qed.

(** ** Refusing to start *)


(** C8: when the settings just fetched have [enabled] false, or carry no
    token, [start] returns [False]; it makes no SDK call (no transport is
    bound), creates no task, and leaves the session handles as they were. *)
Theorem start_refused :
  forall (env : Env) (s s1 : State),
    load_settings env s = (Ret tt, s1) ->
    enabled (self s1) = false \/ bot_token (self s1) = None ->
    exists s' evs,
      start env s = (Ret false, s')
      /\ same_session s s'
      /\ sdk_calls s' = sdk_calls s
      /\ appended s s' evs
      /\ existsb binds_or_spawns evs = false.
Proof.
  intros env s s1 Hload Hoff.
  destruct (load_settings_frame env s Hload) as (Hsess & Hsdk & _ & evs & Happ & _ & Hevs).
  specialize (Hevs eq_refl). subst evs.
  unfold start.
  destruct (TELEGRAM_AVAILABLE env); simpl.
  - unfold bind at 1. rewrite Hload. unfold bind at 1. unfold get_self at 1.
    assert (Hc : (negb (enabled (self s1))
                  || negb (truthy_opt_string (bot_token (self s1))))%bool = true).
    { destruct Hoff as [H | H]; rewrite H; simpl; auto using orb_true_r. }
    rewrite Hc. run.
    eexists. eexists. split; [reflexivity | ].
    split; [exact Hsess | ]. split; [exact Hsdk | ].
    split.
    + unfold appended in *. simpl. rewrite Happ. rewrite <- app_assoc. reflexivity.
    + reflexivity.
  - run. eexists. eexists.
    split; [reflexivity | ].
    split; [unfold same_session; simpl; tauto | ]. split; [reflexivity | ].
    split; [unfold appended; simpl; reflexivity | reflexivity].
Qed.

(** ** The access check in the handlers *)

(** C6: every command handler and the callback handler checks [is_admin]
    on the requesting identity before any database query and before the
    backup producer: for an identity that is not authorised the handler
    makes no query, does not enter [create_backup], leaves the filesystem
    alone, and what it sends is the denial. *)
Theorem handlers_deny_unauthorized :
  forall (env : Env) (h : Handler) (u : Update) (s : State),
    is_admin (self s) (effective_user_id u) = false ->
    exists o s' evs,
      run_handler env h u s = (o, s')
      /\ appended s s' evs
      /\ existsb calls_repository_or_producer evs = false
      /\ db_calls s' = db_calls s
      /\ fs s' = fs s
      /\ (o = Ret tt -> evs = denial h u).
Proof.
  intros env h u s Hdeny.
  destruct h; unfold run_handler, cmd_start, cmd_help, cmd_nodes, cmd_tunnels,
    cmd_status, cmd_backup, handle_callback, deny, appended;
    run; try rewrite Hdeny; run_all;
    try (rewrite Hdeny in *; simpl in *; discriminate);
    (eexists; eexists; eexists; split; [reflexivity | ]);
    simpl;
    (split;
     [first [ reflexivity | symmetry; apply app_nil_r
            | rewrite <- app_assoc; reflexivity ] | ]);
    (split; [reflexivity | ]);
    (split; [reflexivity | ]);
    (split; [reflexivity | ]);
    intros E; first [ discriminate E | reflexivity | idtac ].
  all: try (apply negb_true_iff in Heqb; rewrite Heqb; reflexivity).
  all: try (apply negb_true_iff in Heqb0; rewrite Heqb0; reflexivity).
  all: try (apply negb_true_iff in Heqb1; rewrite Heqb1; reflexivity).
Qed.

(** ** Stopping the session *)

Lemma not_in_filter_neq (t : nat) (l : list nat) :
  ~ In t (filter (fun x => negb (Nat.eqb x t)) l).
Proof.
  intros H. apply filter_In in H. destruct H as [_ H].
  now rewrite Nat.eqb_refl in H.
Qed.

(** [stop] in full: it returns, and this is the state it leaves. *)
Lemma stop_spec env s :
  in_backup_task s = false ->
  exists s',
    stop env s = (Ret tt, s')
    /\ application (self s') = None
    /\ backup_task (self s') = None
    /\ in_backup_task s' = false
    /\ live_tasks s'
       = match backup_task (self s) with
         | Some t => filter (fun x => negb (Nat.eqb x t)) (live_tasks s)
         | None => live_tasks s
         end
    /\ receiving s'
       = match application (self s) with
         | Some a =>
             if updater_running a
             then filter (fun x => negb (Nat.eqb x (app_id a))) (receiving s)
             else receiving s
         | None => receiving s
         end
    /\ next_app s' = next_app s
    /\ appended s s' (stop_events env s)
    /\ stop env s' = (Ret tt, s').
Proof.
  intros Hout.
  unfold stop, stop_backup_task, cancel_and_await, updater_stop, stop_events,
    teardown_calls, appended.
  run.
  destruct (backup_task (self s)) as [t | ] eqn:Htask;
    destruct (application (self s)) as [[a running] | ] eqn:Happ; run;
    try rewrite Happ; try rewrite Htask; try rewrite Hout; run;
    try (destruct running; run; try rewrite Hout; run);
    repeat (match goal with
            | |- context [sdk_fails env ?k] =>
                destruct (sdk_fails env k) eqn:?; run; try rewrite Hout; run
            end);
    (eexists; split; [reflexivity | ]); simpl;
    (split; [first [reflexivity | assumption] | ]);
    (split; [first [reflexivity | assumption] | ]);
    (split; [first [reflexivity | assumption] | ]);
    (split; [reflexivity | ]);
    (split; [reflexivity | ]);
    (split; [reflexivity | ]);
    (split; [repeat rewrite <- app_assoc; try rewrite app_nil_r; reflexivity | ]);
    repeat (run; first [rewrite Happ | rewrite Htask | rewrite Hout]);
    reflexivity.
Qed.

(** C4: [stop], called from outside the backup task, returns normally
    whatever the transport teardown does (it never raises); afterwards the
    bot holds neither a task nor an application handle, and the task it
    held is no longer alive.  Its events are those of [stop_events]: the
    task is cancelled and awaited first, then the transport is unbound in
    the reverse order of binding up to the first call that raises, such an
    error is logged, and the handle is cleared at the end all the same.
    A second [stop] changes nothing. *)
Theorem stop_teardown :
  forall (env : Env) (s : State),
    in_backup_task s = false ->
    exists s',
      stop env s = (Ret tt, s')
      /\ application (self s') = None
      /\ backup_task (self s') = None
      /\ (forall t, backup_task (self s) = Some t -> ~ In t (live_tasks s'))
      /\ appended s s' (stop_events env s)
      /\ stop env s' = (Ret tt, s').
Proof.
  intros env s Hout.
  destruct (stop_spec env s Hout)
    as (s' & Hrun & Happ & Htask & _ & Hlive & _ & _ & Hev & Hidem).
  exists s'. repeat split; auto.
  intros t Ht. rewrite Hlive, Ht. apply not_in_filter_neq.
Qed.

Lemma stop_teardown_witness :
  exists s',
    stop second_call_fails_env (session_state sample_disk) = (Ret tt, s')
    /\ application (self s') = None
    /\ backup_task (self s') = None
    /\ (forall t, backup_task (self (session_state sample_disk)) = Some t ->
                  ~ In t (live_tasks s'))
    /\ appended (session_state sample_disk) s'
                (stop_events second_call_fails_env (session_state sample_disk))
    /\ stop second_call_fails_env s' = (Ret tt, s').
Proof.
  apply (stop_teardown second_call_fails_env (session_state sample_disk)).
  reflexivity.
Defined.

(** ** The backup producer is synchronous filesystem code *)

Lemma quiet_refl s : quiet s s.
Proof. unfold quiet, steady. tauto. Qed.

Lemma quiet_trans s1 s2 s3 : quiet s1 s2 -> quiet s2 s3 -> quiet s1 s3.
Proof.
  unfold quiet, steady. intros H1 H2. decompose [and] H1. decompose [and] H2.
  repeat split; congruence.
Qed.

Lemma fs_task_ret {A} (a : A) : fs_task (ret a).
Proof. intros s. unfold wp. simpl. split; [exact I | apply quiet_refl]. Qed.

Lemma fs_task_raise {A} (e : Exc) : fs_task (@raise A e).
Proof. intros s. unfold wp. simpl. split; [exact I | apply quiet_refl]. Qed.

Lemma fs_task_bind {A B} (m : Task A) (k : A -> Task B) :
  fs_task m -> (forall a, fs_task (k a)) -> fs_task (bind m k).
Proof.
  intros Hm Hk s. apply wp_bind. eapply wp_mono; [apply Hm | ].
  intros o s' [Ho Hq]. destruct o as [a | e | | ]; simpl in *; try tauto.
  eapply wp_mono; [apply Hk | ].
  intros o' s'' [Ho' Hq']. split; [exact Ho' | eapply quiet_trans; eauto].
Qed.

Lemma fs_task_if {A} (c : bool) (m1 m2 : Task A) :
  fs_task m1 -> fs_task m2 -> fs_task (if c then m1 else m2).
Proof. destruct c; auto. Qed.

Lemma fs_task_for_each {A} (xs : list A) (body : A -> Task unit) :
  (forall x, fs_task (body x)) -> fs_task (for_each xs body).
Proof.
  intros Hb. induction xs as [ | x xs IH]; simpl.
  - apply fs_task_ret.
  - apply fs_task_bind; auto.
Qed.

Ltac split_data :=
  match goal with
  | |- context [match ?x with _ => _ end] =>
      lazymatch type of x with
      | option _ => destruct x
      | Node => destruct x
      | bool => destruct x
      end
  end.

Ltac fs_prim :=
  intros s; unfold wp, quiet, steady; run;
  repeat (split_data; run);
  repeat split; auto.

Lemma fs_task_path_exists env p : fs_task (path_exists env p).
Proof. unfold path_exists. fs_prim. Qed.

Lemma fs_task_is_file env p : fs_task (is_file env p).
Proof. unfold is_file. fs_prim. Qed.

Lemma fs_task_mkdir env p : fs_task (mkdir_exist_ok env p).
Proof. unfold mkdir_exist_ok. fs_prim. Qed.

Lemma fs_task_copy2 env src dst : fs_task (copy2 env src dst).
Proof. unfold copy2. fs_prim. Qed.

Lemma fs_task_copytree env src dst : fs_task (copytree env src dst).
Proof. unfold copytree. fs_prim. Qed.

Lemma fs_task_iterdir env p : fs_task (iterdir env p).
Proof. unfold iterdir. fs_prim. Qed.

Lemma fs_task_strftime env : fs_task (strftime env).
Proof. unfold strftime. fs_prim. Qed.

Lemma fs_task_zip_tree env f d : fs_task (zip_tree env f d).
Proof. unfold zip_tree. fs_prim. Qed.

Lemma fs_task_rmtree env p : fs_task (rmtree env p).
Proof. unfold rmtree. fs_prim. Qed.

Create HintDb fs.

#[local] Hint Resolve fs_task_ret fs_task_raise fs_task_path_exists
  fs_task_is_file fs_task_mkdir fs_task_copy2 fs_task_copytree
  fs_task_iterdir fs_task_strftime fs_task_zip_tree fs_task_rmtree : fs.

Ltac fs_auto :=
  repeat first
    [ solve [auto with fs]
    | apply fs_task_bind; [ | intros ? ]
    | apply fs_task_if
    | apply fs_task_for_each; intros ? ].

Lemma fs_task_stage_sources env : fs_task (stage_sources env).
Proof.
  unfold stage_sources, copy_if_exists, copy_cert. fs_auto.
Qed.

Lemma fs_task_archive_staging env : fs_task (archive_staging env).
Proof. unfold archive_staging. fs_auto. Qed.

(** ** Filesystem facts *)

Lemma assoc_set_eq k v es : assoc k (assoc_set k v es) = Some v.
Proof.
  induction es as [ | [k' v'] es IH]; simpl.
  - now rewrite String.eqb_refl.
  - destruct (String.eqb k k') eqn:E; simpl.
    + now rewrite String.eqb_refl.
    + now rewrite E.
Qed.

Lemma assoc_set_neq k k' v es :
  String.eqb k' k = false -> assoc k' (assoc_set k v es) = assoc k' es.
Proof.
  intros N. induction es as [ | [k0 v0] es IH]; simpl.
  - now rewrite N.
  - destruct (String.eqb k k0) eqn:E; simpl.
    + apply String.eqb_eq in E. subst k0. now rewrite N.
    + destruct (String.eqb k' k0); auto.
Qed.

Lemma assoc_del_eq k es : assoc k (assoc_del k es) = None.
Proof.
  induction es as [ | [k' v'] es IH]; simpl; auto.
  destruct (String.eqb k k') eqn:E; simpl; auto. now rewrite E.
Qed.

Lemma assoc_del_neq k k' es :
  String.eqb k' k = false -> assoc k' (assoc_del k es) = assoc k' es.
Proof.
  intros N. induction es as [ | [k0 v0] es IH]; simpl; auto.
  destruct (String.eqb k k0) eqn:E; simpl.
  - apply String.eqb_eq in E. subst k0. now rewrite N.
  - destruct (String.eqb k' k0); auto.
Qed.

Lemma fs_lookup_put p : forall v d d',
  fs_put p v d = Some d' -> fs_lookup p d' = Some v.
Proof.
  induction p as [ | c p IH]; intros v d d' H; simpl in *.
  - now inversion H.
  - destruct d as [r | es]; [discriminate | ].
    destruct p as [ | c' p'].
    + inversion H; subst. simpl. now rewrite assoc_set_eq.
    + destruct (assoc c es) as [m | ] eqn:Em; [ | discriminate].
      destruct (fs_put (c' :: p') v m) as [m' | ] eqn:Ep; [ | discriminate].
      inversion H; subst. cbn [fs_lookup]. rewrite assoc_set_eq.
      exact (IH _ _ _ Ep).
Qed.

Lemma fs_lookup_del p : forall d d',
  fs_del p d = Some d' -> fs_lookup p d' = None.
Proof.
  induction p as [ | c p IH]; intros d d' H; simpl in *.
  - discriminate.
  - destruct d as [r | es]; [discriminate | ].
    destruct p as [ | c' p'].
    + destruct (assoc c es); [ | discriminate].
      inversion H; subst. simpl. now rewrite assoc_del_eq.
    + destruct (assoc c es) as [m | ] eqn:Em; [ | discriminate].
      destruct (fs_del (c' :: p') m) as [m' | ] eqn:Ep; [ | discriminate].
      inversion H; subst. cbn [fs_lookup]. rewrite assoc_set_eq.
      exact (IH _ _ Ep).
Qed.


Lemma fs_lookup_del_diverge q : forall p d d',
  fs_del q d = Some d' -> diverge p q = true ->
  fs_lookup p d' = fs_lookup p d.
Proof.
  induction q as [ | c q IH]; intros p d d' H Hd; simpl in H.
  - discriminate.
  - destruct d as [r | es]; [discriminate | ].
    destruct p as [ | a p]; [discriminate | ]. simpl in Hd.
    destruct (String.eqb a c) eqn:E.
    + apply String.eqb_eq in E. subst a.
      destruct q as [ | c' q'].
      * destruct p; discriminate.
      * destruct (assoc c es) as [m | ] eqn:Em; [ | discriminate].
        destruct (fs_del (c' :: q') m) as [m' | ] eqn:Ep; [ | discriminate].
        inversion H; subst. cbn [fs_lookup]. rewrite assoc_set_eq, Em.
        exact (IH _ _ _ Ep Hd).
    + destruct q as [ | c' q'].
      * destruct (assoc c es); [ | discriminate].
        inversion H; subst. cbn [fs_lookup]. now rewrite assoc_del_neq.
      * destruct (assoc c es) as [m | ] eqn:Em; [ | discriminate].
        destruct (fs_del (c' :: q') m) as [m' | ] eqn:Ep; [ | discriminate].
        inversion H; subst. cbn [fs_lookup]. now rewrite assoc_set_neq.
Qed.

(** ** What the producer leaves behind *)

Lemma bind_ret_inv {A B} (m : Task A) (k : A -> Task B) s b s' :
  bind m k s = (Ret b, s') ->
  exists a s1, m s = (Ret a, s1) /\ k a s1 = (Ret b, s').
Proof.
  unfold bind. destruct (m s) as [[a | e | | ] s1]; intros H;
    try discriminate. eauto.
Qed.

Ltac split_in H :=
  match type of H with
  | context [if ?c then _ else _] => destruct c eqn:?
  | context [match ?x with _ => _ end] =>
      lazymatch type of x with
      | option _ => destruct x eqn:?
      | Node => destruct x eqn:?
      | bool => destruct x eqn:?
      end
  end.

Ltac invert_run H :=
  run; repeat (split_in H; run); try discriminate H;
  inversion H; subst; clear H; simpl.

Lemma zip_tree_ret env f d s u s1 :
  zip_tree env f d s = (Ret u, s1) ->
  fs_put f (File true) (fs s) = Some (fs s1).
Proof. unfold zip_tree. intros H. invert_run H; reflexivity. Qed.

Lemma rmtree_ret env p s u s1 :
  rmtree env p s = (Ret u, s1) ->
  fs_del (resolve env p) (fs s) = Some (fs s1).
Proof. unfold rmtree. intros H. invert_run H; reflexivity. Qed.

Lemma archive_staging_result env s r s1 :
  archive_staging env s = (Ret r, s1) ->
  exists ts,
    r = Some (backup_file_at ts)
    /\ fs_lookup (backup_file_at ts) (fs s1) = Some (File true)
    /\ fs_lookup (resolve env backup_dir) (fs s1) = None.
Proof.
  unfold archive_staging. intros H.
  apply bind_ret_inv in H. destruct H as (ts & s2 & _ & H).
  apply bind_ret_inv in H. destruct H as (u1 & s3 & Hzip & H).
  apply bind_ret_inv in H. destruct H as (u2 & s4 & Hrm & H).
  unfold ret in H. inversion H; subst; clear H.
  apply zip_tree_ret in Hzip. apply rmtree_ret in Hrm.
  exists ts. split; [reflexivity | ]. split.
  - rewrite (fs_lookup_del_diverge _ _ _ Hrm).
    + exact (fs_lookup_put _ _ _ Hzip).
    + reflexivity.
  - exact (fs_lookup_del _ _ Hrm).
Qed.

(** [create_backup] always returns: either the path of an archive that
    now exists while the staging directory is gone, or [None] after
    logging the error. *)
Lemma create_backup_spec env s :
  exists r s1,
    create_backup env s = (Ret r, s1)
    /\ steady s s1
    /\ ((exists ts, r = Some (backup_file_at ts)
                    /\ fs_lookup (backup_file_at ts) (fs s1) = Some (File true)
                    /\ fs_lookup (resolve env backup_dir) (fs s1) = None
                    /\ appended s s1 [EvCreateBackup])
        \/ (r = None
            /\ appended s s1 [EvCreateBackup; EvLog Error "Error creating backup"])).
Proof.
  unfold create_backup.
  set (body := stage_sources env;; archive_staging env).
  assert (Hbody : fs_task body).
  { apply fs_task_bind; [apply fs_task_stage_sources | intros _; apply fs_task_archive_staging]. }
  set (s0 := emit EvCreateBackup s).
  specialize (Hbody s0). unfold wp in Hbody.
  unfold bind at 1. unfold event at 1. fold s0. unfold try_except.
  destruct (body s0) as [[r | e | | ] s'] eqn:Eb; simpl in Hbody;
    destruct Hbody as [Ho [Hst Htr]]; try contradiction.
  - exists r, s'. split; [reflexivity | ].
    split; [exact Hst | ]. left.
    unfold body in Eb. apply bind_ret_inv in Eb.
    destruct Eb as (u & s2 & _ & Ha).
    destruct (archive_staging_result _ _ Ha) as (ts & Hr & Hf & Hd).
    exists ts. repeat split; auto.
  - run. eexists. eexists. split; [reflexivity | ].
    split.
    + unfold steady in *. simpl. exact Hst.
    + right. split; [reflexivity | ].
      unfold appended. simpl. rewrite Htr. unfold s0. simpl.
      now rewrite <- app_assoc.
Qed.

(** ** One cycle of the scheduler *)

Lemma suspend_outcome env s :
  continues_or_cancelled env (fst (suspend env s)).
Proof.
  unfold suspend, continues_or_cancelled.
  destruct (in_backup_task s); simpl; auto.
  destruct (cancel_at env (suspensions s)) eqn:E; simpl; eauto.
Qed.

Lemma send_backup_to_outcome env p id s :
  continues_or_cancelled env (fst (send_backup_to env p id s)).
Proof.
  unfold send_backup_to, open_rb, continues_or_cancelled.
  destruct (py_int id) as [n | ]; run; auto.
  destruct (fs_lookup p (fs s)) as [[[ | ] | es] | ]; run; auto.
  destruct (in_backup_task s); run;
    [destruct (cancel_at env (suspensions s)) eqn:E; run; eauto | ];
    destruct (sdk_fails env (sdk_calls s)); run; auto.
Qed.

Lemma for_each_outcome {A} env (xs : list A) (body : A -> Task unit) :
  (forall x s, continues_or_cancelled env (fst (body x s))) ->
  forall s, continues_or_cancelled env (fst (for_each xs body s)).
Proof.
  intros Hb. induction xs as [ | x xs IH]; intros s; simpl.
  - left. reflexivity.
  - unfold bind. specialize (Hb x s).
    destruct (body x s) as [[[] | e | | ] s1]; simpl in *; auto.
Qed.

Lemma os_remove_outcome p s :
  returns_or_raises (fst (os_remove p s)).
Proof.
  unfold os_remove. run.
  destruct (fs_is_file p (fs s)); run; auto.
  destruct (fs_del p (fs s)); run; auto.
Qed.

(** The [try] block of a cycle swallows every failure of the producer
    and of the dispatch. *)
Lemma produce_and_dispatch_outcome env s :
  continues_or_cancelled env (fst (produce_and_dispatch env s)).
Proof.
  unfold produce_and_dispatch, try_except.
  unfold bind at 1.
  destruct (create_backup_spec env s) as (r & s1 & Hc & _).
  rewrite Hc. unfold bind at 1. unfold get_self at 1.
  destruct r as [p | ]; [ | left; reflexivity].
  destruct (application (self s1)); [ | left; reflexivity].
  unfold bind at 1.
  pose proof (@for_each_outcome _ env (admin_ids (self s1))
                (send_backup_to env p) (send_backup_to_outcome env p) s1) as Hf.
  destruct (for_each (admin_ids (self s1)) (send_backup_to env p) s1)
    as [[[] | e | | ] s2]; simpl in Hf;
    try (destruct Hf as [Hf | [Hf Hk]]; try discriminate).
  - unfold bind at 1. unfold os_path_exists at 1.
    unfold bind at 1.
    destruct (fs_exists p (fs s2)).
    + pose proof (os_remove_outcome p s2) as Hr.
      destruct (os_remove p s2) as [[[] | e | | ] s3]; simpl in Hr;
        try contradiction; run; left; reflexivity.
    + run. left. reflexivity.
  - right. split; [reflexivity | exact Hk].
Qed.

(** A sending step never raises; when it returns, the document went out
    or the failure was logged, and the files are as before. *)
Lemma send_backup_to_spec env p id s :
  exists o s' evs,
    send_backup_to env p id s = (o, s')
    /\ continues_or_cancelled env o
    /\ same_files s s'
    /\ appended s s' evs
    /\ removes evs = []
    /\ (o = Ret tt -> sent_or_logged p evs)
    /\ (o = Ret tt -> fs_lookup p (fs s) = Some (File true) ->
        sends evs = valid_ids [id]).
Proof.
  unfold send_backup_to, open_rb, continues_or_cancelled, same_files,
    appended, sent_or_logged, valid_ids.
  simpl. rewrite app_nil_r.
  destruct (py_int id) as [n | ]; run.
  - destruct (fs_lookup p (fs s)) as [[[ | ] | es] | ] eqn:El; run.
    + destruct (in_backup_task s) eqn:Et; run;
        [destruct (cancel_at env (suspensions s)) eqn:Ec; run | ];
        try (destruct (sdk_fails env (sdk_calls s)) eqn:Ef; run);
        (eexists; eexists; eexists; split; [reflexivity | ]);
        simpl;
        (split; [eauto | ]);
        (split; [auto | ]);
        (split; [first [reflexivity | symmetry; apply app_nil_r
                       | rewrite <- app_assoc; reflexivity] | ]);
        (split; [reflexivity | ]);
        (split; [intros E; try discriminate E;
                 first [ left; eexists; reflexivity
                       | right; left; eexists; reflexivity
                       | right; right; reflexivity ] | ]);
        intros E; try discriminate E; reflexivity.
    + eexists; eexists; eexists; split; [reflexivity | ]. simpl.
      repeat split; auto. intros _ E. discriminate E.
    + eexists; eexists; eexists; split; [reflexivity | ]. simpl.
      repeat split; auto. intros _ E. discriminate E.
    + eexists; eexists; eexists; split; [reflexivity | ]. simpl.
      repeat split; auto. intros _ E. discriminate E.
  - eexists; eexists; eexists; split; [reflexivity | ]. simpl.
    repeat split; auto.
Qed.




Lemma load_settings_outcome env s :
  db_fails env (db_calls s) = false ->
  continues_or_cancelled env (fst (load_settings env s)).
Proof.
  intros Hdb. unfold load_settings, continues_or_cancelled. run.
  destruct (in_backup_task s); run;
    [destruct (cancel_at env (suspensions s)) eqn:Ec; run; eauto | ];
    rewrite Hdb; run; auto.
Qed.

Lemma sleep_spec env z s :
  exists o s',
    sleep env z s = (o, s')
    /\ continues_or_cancelled env o
    /\ appended s s' [EvSleep z]
    /\ fs s' = fs s /\ self s' = self s /\ db_calls s' = db_calls s.
Proof.
  unfold sleep, continues_or_cancelled, appended. run.
  destruct (in_backup_task s); run;
    [destruct (cancel_at env (suspensions s)) eqn:Ec; run | ];
    eexists; eexists; (split; [reflexivity | ]); simpl; eauto 10.
Qed.

(** An iteration ends by itself only when the settings query fails. *)
Lemma backup_cycle_outcome env s :
  db_fails env (db_calls s) = false ->
  continues_or_cancelled env (fst (backup_cycle env s)).
Proof.
  intros Hdb. unfold backup_cycle. unfold bind at 1.
  pose proof (load_settings_outcome env s Hdb) as Hl.
  destruct (load_settings env s) as [[[] | e | | ] s1]; simpl in Hl; auto.
  unfold bind at 1. unfold get_self at 1.
  destruct (negb (backup_enabled (self s1))
            || negb (truthy_list (admin_ids (self s1))))%bool.
  - destruct (sleep_spec env 60 s1) as (o & s2 & Hs & Ho & _). now rewrite Hs.
  - unfold bind at 1.
    destruct (sleep_spec env (sleep_seconds (self s1)) s1)
      as (o & s2 & Hs & Ho & _).
    rewrite Hs. destruct o as [[] | e | | ]; simpl; auto.
    unfold bind at 1. unfold get_self at 1.
    destruct (negb (backup_enabled (self s2))).
    + left. reflexivity.
    + apply produce_and_dispatch_outcome.
Qed.

Lemma while_true_outcome env (body : Task unit) :
  (forall s, continues_or_cancelled env (fst (body s))) ->
  forall fuel s,
    fst (while_true fuel body s) = Timeout
    \/ (fst (while_true fuel body s) = Cancel
        /\ exists k, cancel_at env k = true).
Proof.
  intros Hb. induction fuel as [ | fuel IH]; intros s; simpl.
  - left. reflexivity.
  - unfold bind. specialize (Hb s).
    destruct (body s) as [[[] | e | | ] s1]; simpl in *.
    + apply IH.
    + destruct Hb as [Hb | [Hb _]]; discriminate Hb.
    + right. destruct Hb as [Hb | [_ Hk]]; [discriminate Hb | auto].
    + left. reflexivity.
Qed.

(** ** The scheduler loop and failures *)

(** C1, as the code has it: a failure of the backup producer or of a
    delivery is caught inside the iteration (a sending step that returns
    has sent the document or logged the error, and the [try] block of the
    iteration never raises), so the loop goes on to the next iteration;
    nothing but a cancellation ever propagates out of the loop; and as
    long as the settings query does not fail, the loop ends only by a
    cancellation that was really delivered. *)
Theorem backup_loop_survives_production_failures :
  forall (env : Env),
    (forall p id s,
        continues_or_cancelled env (fst (send_backup_to env p id s))
        /\ (fst (send_backup_to env p id s) = Ret tt ->
            exists evs, appended s (snd (send_backup_to env p id s)) evs
                        /\ sent_or_logged p evs))
    /\ (forall s, continues_or_cancelled env (fst (produce_and_dispatch env s)))
    /\ (forall fuel s e, fst (_backup_loop env fuel s) <> Raise e)
    /\ ((forall k, db_fails env k = false) ->
        forall fuel s,
          fst (_backup_loop env fuel s) = Timeout
          \/ (fst (_backup_loop env fuel s) = Cancel
              /\ exists k, cancel_at env k = true)).
Proof.
  intros env. split; [ | split; [ | split]].
  - intros p id s.
    destruct (send_backup_to_spec env p id s)
      as (o & s' & evs & Hrun & Ho & _ & Happ & _ & Hlog & _).
    rewrite Hrun. simpl. split; [exact Ho | ].
    intros E. exists evs. auto.
  - apply produce_and_dispatch_outcome.
  - intros fuel s e. unfold _backup_loop, try_except_cancelled.
    destruct (while_true fuel (backup_cycle env) s) as [[[] | e' | | ] s1];
      run; discriminate.
  - intros Hdb fuel s. unfold _backup_loop, try_except_cancelled.
    pose proof (@while_true_outcome env (backup_cycle env)
                  (fun s0 => backup_cycle_outcome env s0 (Hdb _)) fuel s) as Hw.
    destruct (while_true fuel (backup_cycle env) s) as [[[] | e' | | ] s1];
      simpl in Hw; run.
    + destruct Hw as [Hw | [Hw _]]; discriminate Hw.
    + destruct Hw as [Hw | [Hw _]]; discriminate Hw.
    + right. destruct Hw as [Hw | [_ Hk]]; [discriminate Hw | auto].
    + left. reflexivity.
Qed.

(** The claim as the spec states it fails: the database answers the
    first settings query and fails the second; no cancellation is ever
    delivered, and yet the loop, given room for five iterations, returns
    during the second one, after the outer handler logged the error. *)
Lemma backup_loop_ends_on_settings_failure :
  (forall k, cancel_at flaky_db_env k = false)
  /\ fst (_backup_loop flaky_db_env 5 (task_state sample_disk)) = Ret tt
  /\ filter (fun e => match e with
                      | EvQuery SelectSettings _ | EvLog Error _ => true
                      | _ => false
                      end)
            (trace (snd (_backup_loop flaky_db_env 5 (task_state sample_disk))))
     = [EvQuery SelectSettings true; EvQuery SelectSettings false;
        EvLog Error "Backup loop error"].
Proof.
  split; [reflexivity | ]. split; vm_compute; reflexivity.
Qed.

(** ** The idle scheduler *)

Lemma backup_enabled_with_settings r b :
  backup_enabled (with_settings r b) = row_backup_enabled r.
Proof. destruct r as [v | ]; reflexivity. Qed.

Lemma backup_cycle_idle env s s1 :
  load_settings env s = (Ret tt, s1) ->
  backup_enabled (self s1) = false \/ admin_ids (self s1) = [] ->
  backup_cycle env s = sleep env 60 s1.
Proof.
  intros Hl Hidle. unfold backup_cycle. unfold bind at 1. rewrite Hl.
  unfold bind at 1. unfold get_self at 1.
  destruct Hidle as [H | H]; rewrite H; simpl; [reflexivity | ].
  now rewrite orb_true_r.
Qed.

Lemma load_settings_self env s o s1 :
  load_settings env s = (o, s1) ->
  o = Ret tt ->
  self s1 = with_settings (telegram_row env (db_calls s)) (self s).
Proof.
  unfold load_settings. intros H E. subst o. invert_run H; reflexivity.
Qed.

Lemma forallb_idle_app e1 e2 :
  forallb idle_event e1 = true -> forallb idle_event e2 = true ->
  forallb idle_event (e1 ++ e2) = true.
Proof. intros H1 H2. rewrite forallb_app, H1, H2. reflexivity. Qed.

Lemma backup_cycle_stays_idle env s :
  (forall k, row_backup_enabled (telegram_row env k) = false) ->
  exists o s' evs,
    backup_cycle env s = (o, s')
    /\ appended s s' evs
    /\ forallb idle_event evs = true
    /\ fs s' = fs s.
Proof.
  intros Hoff.
  destruct (load_settings env s) as [o s1] eqn:Hl.
  destruct (load_settings_frame env s Hl)
    as (_ & _ & Hfs & evs & Happ & Hidle & Hevs).
  destruct o as [[] | e | | ].
  - rewrite (@backup_cycle_idle env s s1 Hl).
    + destruct (sleep_spec env 60 s1) as (o & s2 & Hs & _ & Happ2 & Hfs2 & _).
      exists o, s2, (evs ++ [EvSleep 60]). split; [exact Hs | ].
      split; [eapply appended_trans; eauto | ].
      split; [rewrite (Hevs eq_refl); reflexivity | congruence].
    + left. rewrite (load_settings_self env s Hl eq_refl).
      rewrite backup_enabled_with_settings. apply Hoff.
  - exists (Raise e), s1, evs. unfold backup_cycle. unfold bind at 1. rewrite Hl.
    auto.
  - exists Cancel, s1, evs. unfold backup_cycle. unfold bind at 1. rewrite Hl.
    auto.
  - exists Timeout, s1, evs. unfold backup_cycle. unfold bind at 1. rewrite Hl.
    auto.
Qed.

Lemma while_true_stays_idle env :
  (forall k, row_backup_enabled (telegram_row env k) = false) ->
  forall fuel s,
    exists o s' evs,
      while_true fuel (backup_cycle env) s = (o, s')
      /\ appended s s' evs
      /\ forallb idle_event evs = true
      /\ fs s' = fs s.
Proof.
  intros Hoff. induction fuel as [ | fuel IH]; intros s.
  - exists Timeout, s, []. simpl. repeat split; auto. apply appended_refl.
  - destruct (backup_cycle_stays_idle env s Hoff)
      as (o1 & s1 & e1 & Hc & Happ1 & Hid1 & Hfs1).
    cbn [while_true]. unfold bind. rewrite Hc.
    destruct o1 as [[] | e | | ];
      try (eexists; eexists; exists e1; repeat split; eauto; fail).
    destruct (IH s1) as (o2 & s2 & e2 & Hw & Happ2 & Hid2 & Hfs2).
    exists o2, s2, (e1 ++ e2). split; [exact Hw | ].
    split; [eapply appended_trans; eauto | ].
    split; [apply forallb_idle_app; auto | congruence].
Qed.

Lemma backup_loop_stays_idle env :
  (forall k, row_backup_enabled (telegram_row env k) = false) ->
  forall fuel s,
    exists evs,
      appended s (snd (_backup_loop env fuel s)) evs
      /\ forallb idle_event evs = true
      /\ fs (snd (_backup_loop env fuel s)) = fs s.
Proof.
  intros Hoff fuel s.
  destruct (while_true_stays_idle env Hoff fuel s)
    as (o & s1 & evs & Hw & Happ & Hid & Hfs).
  unfold _backup_loop, try_except_cancelled. rewrite Hw.
  destruct o as [[] | e | | ]; run.
  - exists evs. auto.
  - exists (evs ++ [EvLog Error "Backup loop error"]). split.
    + unfold appended in *. simpl. rewrite Happ. now rewrite app_assoc.
    + split; [apply forallb_idle_app; auto | exact Hfs].
  - exists (evs ++ [EvLog Info "Backup loop cancelled"]). split.
    + unfold appended in *. simpl. rewrite Happ. now rewrite app_assoc.
    + split; [apply forallb_idle_app; auto | exact Hfs].
  - exists evs. auto.
Qed.

(** C7: an iteration whose freshly loaded settings have backups disabled
    or no administrators does nothing but sleep 60 seconds (its events
    are the settings query and that sleep; the filesystem is untouched)
    and then ends normally, which starts the next iteration, unless the
    sleep is cancelled.  Consequently, while the settings keep backups
    disabled the loop never enters the backup producer, and every sleep
    it makes is one of 60 seconds. *)
Theorem idle_scheduler_sleeps_60 :
  forall (env : Env),
    (forall s s1,
        load_settings env s = (Ret tt, s1) ->
        backup_enabled (self s1) = false \/ admin_ids (self s1) = [] ->
        exists o s',
          backup_cycle env s = (o, s')
          /\ (o = Ret tt \/ o = Cancel)
          /\ appended s s' [EvQuery SelectSettings true; EvSleep 60]
          /\ fs s' = fs s)
    /\ ((forall k, row_backup_enabled (telegram_row env k) = false) ->
        forall fuel s,
          exists evs,
            appended s (snd (_backup_loop env fuel s)) evs
            /\ ~ In EvCreateBackup evs
            /\ (forall z, In (EvSleep z) evs -> z = 60)
            /\ fs (snd (_backup_loop env fuel s)) = fs s).
Proof.
  intros env. split.
  - intros s s1 Hl Hidle.
    rewrite (backup_cycle_idle env s Hl Hidle).
    destruct (load_settings_frame env s Hl)
      as (_ & _ & Hfs & evs & Happ & _ & Hevs).
    specialize (Hevs eq_refl). subst evs.
    destruct (sleep_spec env 60 s1) as (o & s2 & Hs & Ho & Happ2 & Hfs2 & _).
    exists o, s2. split; [exact Hs | ].
    split; [destruct Ho as [Ho | [Ho _]]; auto | ].
    split; [exact (appended_trans Happ Happ2) | congruence].
  - intros Hoff fuel s.
    destruct (backup_loop_stays_idle env Hoff fuel s) as (evs & Happ & Hid & Hfs).
    exists evs. split; [exact Happ | ].
    rewrite forallb_forall in Hid.
    split; [ | split; [ | exact Hfs]].
    + intros Hin. apply Hid in Hin. discriminate Hin.
    + intros z Hin. apply Hid in Hin. simpl in Hin. now apply Z.eqb_eq.
Qed.

Lemma idle_scheduler_sleeps_60_witness :
  (exists o s',
      backup_cycle backups_off_env (task_state sample_disk) = (o, s')
      /\ (o = Ret tt \/ o = Cancel)
      /\ appended (task_state sample_disk) s'
                  [EvQuery SelectSettings true; EvSleep 60]
      /\ fs s' = fs (task_state sample_disk))
  /\ (exists evs,
         appended (task_state sample_disk)
                  (snd (_backup_loop backups_off_env 3 (task_state sample_disk)))
                  evs
         /\ ~ In EvCreateBackup evs
         /\ (forall z, In (EvSleep z) evs -> z = 60)
         /\ fs (snd (_backup_loop backups_off_env 3 (task_state sample_disk)))
            = fs (task_state sample_disk)).
Proof.
  destruct (idle_scheduler_sleeps_60 backups_off_env) as [Hcycle Hloop].
  split.
  - apply (Hcycle (task_state sample_disk)
                  (snd (load_settings backups_off_env (task_state sample_disk)))).
    + reflexivity.
    + left. reflexivity.
  - apply (Hloop (fun k => eq_refl) 3%nat (task_state sample_disk)).
Defined.

(** ** Dispatch and deletion of the artifact *)









(** ** Starting the session *)



Ltac grows_now :=
  unfold grows, appended; simpl;
  first [ exists []; symmetry; apply app_nil_r
        | eexists; reflexivity
        | eexists; rewrite <- !app_assoc; reflexivity ].

Lemma start_backup_task_spec env s :
  in_backup_task s = false ->
  backup_task (self s) = None ->
  exists o s',
    start_backup_task env s = (o, s')
    /\ returns_or_raises o
    /\ application (self s') = application (self s)
    /\ receiving s' = receiving s
    /\ in_backup_task s' = false
    /\ live_tasks s' = live_tasks s ++ match backup_task (self s') with
                                       | Some t => [t]
                                       | None => []
                                       end
    /\ grows s s'.
Proof.
  intros Hout Htask.
  unfold start_backup_task, stop_backup_task, load_settings, create_task.
  run. rewrite Htask. run. rewrite Hout. run.
  destruct (db_fails env (db_calls s)); run.
  - eexists; eexists; split; [reflexivity | ]. simpl.
    repeat split; auto.
    + now rewrite Htask, app_nil_r.
    + grows_now.
  - destruct (telegram_row env (db_calls s)) as [v | ]; run.
    + destruct (match sv_backup_enabled v with Some x => x | None => false end
                && truthy_list (match sv_admin_ids v with Some x => x | None => [] end))%bool;
        run; (eexists; eexists; split; [reflexivity | ]); simpl;
        repeat split; auto; try grows_now.
      now rewrite Htask, app_nil_r.
    + eexists; eexists; split; [reflexivity | ]. simpl.
      repeat split; auto; try grows_now.
      now rewrite Htask, app_nil_r.
Qed.

Lemma session_inv_same_session s s' :
  same_session s s' -> session_inv s -> session_inv s'.
Proof.
  unfold same_session, session_inv.
  intros (Ha & Ht & Hl & Hr & _ & _ & Hi) (Hout & Hlive & Hrecv).
  rewrite Ha, Ht, Hl, Hr, Hi. auto.
Qed.

Ltac use_stop Hout :=
  match goal with
  | |- context [stop ?env ?st] =>
      let s3 := fresh "s3" in
      let Hs := fresh "Hstop" in
      let Ha := fresh "Happ" in
      let Ht := fresh "Htask" in
      let Ho := fresh "Hout" in
      let Hl := fresh "Hlive" in
      let Hr := fresh "Hrecv" in
      let He := fresh "Hev" in
      destruct (stop_spec env st Hout)
        as (s3 & Hs & Ha & Ht & Ho & Hl & Hr & _ & He & _);
      rewrite Hs; simpl in Hl, Hr, He
  end.

Lemma keeps_refl s : keeps s s.
Proof. unfold keeps. tauto. Qed.

Lemma keeps_trans s1 s2 s3 : keeps s1 s2 -> keeps s2 s3 -> keeps s1 s3.
Proof.
  unfold keeps. intros H1 H2. decompose [and] H1. decompose [and] H2.
  repeat split; congruence.
Qed.

Lemma calm_sdk env c : calm (sdk env c).
Proof.
  intros s Hout. unfold wp, keeps. run. rewrite Hout. run.
  destruct (sdk_fails env (sdk_calls s)); run;
    repeat split; auto; grows_now.
Qed.

Lemma calm_add_handler a name : calm (add_handler a name).
Proof.
  intros s Hout. unfold wp, keeps, add_handler. run.
  repeat split; auto; grows_now.
Qed.

Lemma calm_log lvl what : calm (log lvl what).
Proof.
  intros s Hout. unfold wp, keeps. run. repeat split; auto; grows_now.
Qed.

(** One calm step in front of a task: the rest runs in a state that
    [keeps] the session, and a raise of the step leaves such a state. *)
Lemma wp_calm_then {A B} (m : Task A) (k : Task B) Q s :
  calm m ->
  in_backup_task s = false ->
  (forall s', keeps s s' -> grows s s' -> wp k Q s') ->
  (forall e s', keeps s s' -> grows s s' -> Q (Raise e) s') ->
  wp (m ;; k) Q s.
Proof.
  intros Hm Hout Hk Hr. apply wp_bind.
  eapply wp_mono; [apply (Hm s Hout) | ].
  intros o s' (Ho & Hkeep & Hg). destruct o; simpl in *; try contradiction; auto.
Qed.

Lemma binding_keeps s0 a s s' :
  binding s0 a s -> keeps s s' -> grows s s' -> binding s0 a s'.
Proof.
  unfold binding, keeps.
  intros (Hout & Hl & Hr & Ht & Ha & rest & Hev) (Ka & Kt & Kl & Kr & Ki) [evs Hg].
  rewrite Ka, Kt, Kl, Kr, Ki. repeat split; auto.
  exists (rest ++ evs). unfold appended in *.
  rewrite Hg, Hev. now rewrite <- app_assoc.
Qed.

Lemma binding_inv s0 a s : binding s0 a s -> session_inv s.
Proof.
  unfold binding, session_inv.
  intros (Hout & Hl & Hr & Ht & Ha & _). rewrite Hl, Hr, Ht, Ha. auto.
Qed.

Lemma binding_grows s0 a s : binding s0 a s -> grows s0 s.
Proof. intros (_ & _ & _ & _ & _ & rest & Hev). eexists. exact Hev. Qed.

(** Building the application from a stopped session. *)
Lemma build_application_spec env s :
  in_backup_task s = false ->
  live_tasks s = [] -> receiving s = [] -> backup_task (self s) = None ->
  application (self s) = None ->
  wp (build_application env)
     (fun o s' => match o with
                  | Ret a => binding s a s'
                  | Raise _ => session_inv s' /\ grows s s'
                  | _ => False
                  end) s.
Proof.
  intros Hout Hl Hr Ht Ha. unfold wp, build_application, binding, session_inv.
  run. destruct (sdk_fails env (sdk_calls s)); run.
  - rewrite Hl, Hr, Ht, Ha. repeat split; auto. grows_now.
  - repeat split; auto. exists []. reflexivity.
Qed.

Lemma start_polling_spec env s0 a s :
  binding s0 a s ->
  wp (start_polling env a)
     (fun o s' =>
        match o with
        | Ret _ =>
            in_backup_task s' = false
            /\ live_tasks s' = []
            /\ receiving s' = [a]
            /\ backup_task (self s') = None
            /\ application (self s') = Some (mkApplication a true)
            /\ exists rest, appended s0 s' (EvSdk (Build a) true :: rest)
        | Raise _ => binding s0 a s'
        | _ => False
        end) s.
Proof.
  intros (Hout & Hl & Hr & Ht & Ha & rest & Hev).
  unfold wp, start_polling, binding, appended in *. run. rewrite Hout. run.
  destruct (sdk_fails env (sdk_calls s)); run.
  - repeat split; auto. exists (rest ++ [EvSdk (StartPolling a true) false]).
    rewrite Hev. now rewrite <- app_assoc.
  - rewrite Hr. repeat split; auto.
    exists (rest ++ [EvSdk (StartPolling a true) true]).
    rewrite Hev. now rewrite <- app_assoc.
Qed.

(** The end of the [try] block of [start]: polling, the scheduler task,
    the success message. *)
Lemma start_tail_spec env s0 a s :
  binding s0 a s ->
  wp (start_polling env a ;;
      start_backup_task env ;;
      log Info "Telegram bot started successfully" ;;
      ret true)
     (bound_or_failed s0) s.
Proof.
  intros Hb. apply wp_bind.
  eapply wp_mono; [apply (start_polling_spec env Hb) | ].
  intros o s1 H. destruct o as [[] | e | | ]; simpl in *; try contradiction.
  2:{ split; [exact (binding_inv H) | exact (binding_grows H)]. }
  destruct H as (Hout & Hl & Hr & Ht & Ha & rest & Hev).
  destruct (start_backup_task_spec env s1 Hout Ht)
    as (o2 & s2 & Hrun & Ho & Ha2 & Hr2 & Hout2 & Hl2 & [evs2 Hg2]).
  assert (Hinv2 : session_inv s2).
  { unfold session_inv. rewrite Hl2, Hl, Hr2, Hr, Ha2, Ha. simpl. auto. }
  assert (Hev2 : appended s0 s2 (EvSdk (Build a) true :: rest ++ evs2)).
  { unfold appended in *. rewrite Hg2, Hev. now rewrite <- app_assoc. }
  unfold wp, bind. rewrite Hrun.
  destruct o2 as [[] | e | | ]; simpl in *; try contradiction.
  - assert (Hev3 : trace s2 ++ [EvLog Info "Telegram bot started successfully"]
                   = trace s0 ++ EvSdk (Build a) true
                       :: (rest ++ evs2)
                          ++ [EvLog Info "Telegram bot started successfully"]).
    { unfold appended in Hev2. rewrite Hev2. rewrite <- app_assoc. reflexivity. }
    split; [exact Hinv2 | ].
    split; [eexists; unfold appended; simpl; exact Hev3 | ].
    intros _. exists a. eexists. split; [rewrite Ha2; exact Ha | ].
    unfold appended. simpl. exact Hev3.
  - split; [exact Hinv2 | eexists; exact Hev2].
Qed.

Ltac calm_step Hb :=
  apply wp_calm_then;
  [ first [apply calm_add_handler | apply calm_sdk]
  | exact (proj1 Hb)
  | let s' := fresh "s" in
    let Hk := fresh "Hk" in
    let Hg := fresh "Hg" in
    let Hb' := fresh "Hb" in
    intros s' Hk Hg; pose proof (binding_keeps Hb Hk Hg) as Hb';
    clear Hb Hk Hg; rename Hb' into Hb
  | let s' := fresh "s" in
    let Hk := fresh "Hk" in
    let Hg := fresh "Hg" in
    intros ? s' Hk Hg;
    split; [exact (binding_inv (binding_keeps Hb Hk Hg))
           | exact (binding_grows (binding_keeps Hb Hk Hg))] ].




Example start_twice_calm :
  fst (start calm_env (snd (start calm_env (boot sample_disk)))) = Ret true
  /\ live_tasks (snd (start calm_env (snd (start calm_env (boot sample_disk))))) = [1%nat]
  /\ receiving (snd (start calm_env (snd (start calm_env (boot sample_disk))))) = [1%nat].
Proof. repeat split; vm_compute; reflexivity. Qed.

(** ** The staging directory *)

(** On success no staging directory is left. *)
Lemma create_backup_success_removes_staging env s p s1 :
  create_backup env s = (Ret (Some p), s1) ->
  fs_exists (resolve env backup_dir) (fs s1) = false.
Proof.
  intros Hc.
  destruct (create_backup_spec env s) as (r & s1' & Hc' & _ & Hcases).
  rewrite Hc in Hc'. inversion Hc'; subst r s1'; clear Hc'.
  destruct Hcases as [(ts & _ & _ & Hgone & _) | [Hn _]]; [ | discriminate Hn].
  unfold fs_exists. now rewrite Hgone.
Qed.

(** C2 fails on the failure path.  First input: the database file exists
    but cannot be read; second input: the node certificate path is a
    directory.  In both there is no staging directory before the call,
    [create_backup] fails (it returns [None]), and the staging directory
    it created is still there afterwards, since the [except] clause only
    logs. *)
Theorem create_backup_leaves_staging_on_failure :
  (fs_exists ["tmp"; "smite_backup"] locked_disk = false
   /\ fst (create_backup calm_env (session_state locked_disk)) = Ret None
   /\ fs_is_dir ["tmp"; "smite_backup"]
                (fs (snd (create_backup calm_env (session_state locked_disk))))
      = true)
  /\ (fs_exists ["tmp"; "smite_backup"] mounted_dir_disk = false
      /\ fst (create_backup calm_env (session_state mounted_dir_disk)) = Ret None
      /\ fs_is_dir ["tmp"; "smite_backup"; "certs"]
                   (fs (snd (create_backup calm_env
                                           (session_state mounted_dir_disk))))
         = true).
Proof. repeat split; vm_compute; reflexivity. Qed.

(** ** Cancellation ends the loop *)

(** A cancellation delivered at the suspension the task is about to reach
    ends the loop: it is logged and re-raised, never swallowed. *)
Lemma backup_loop_cancel_ends env fuel s :
  in_backup_task s = true ->
  cancel_at env (suspensions s) = true ->
  fst (_backup_loop env (S fuel) s) = Cancel.
Proof.
  intros Ht Hc.
  unfold _backup_loop, try_except_cancelled. cbn [while_true].
  unfold bind at 1. unfold backup_cycle at 1. unfold bind at 1.
  unfold load_settings at 1. unfold bind at 1. unfold execute at 1.
  unfold bind at 1. unfold suspend at 1. rewrite Ht, Hc. reflexivity.
Qed.

(** ** The statements at sample inputs *)

Lemma backup_loop_survives_production_failures_witness :
  fst (_backup_loop second_call_fails_env 4 (task_state sample_disk)) = Timeout
  \/ (fst (_backup_loop second_call_fails_env 4 (task_state sample_disk)) = Cancel
      /\ exists k, cancel_at second_call_fails_env k = true).
Proof.
  destruct (backup_loop_survives_production_failures second_call_fails_env)
    as (_ & _ & _ & Hloop).
  apply (Hloop (fun k => eq_refl) 4%nat (task_state sample_disk)).
Defined.

Lemma handlers_deny_unauthorized_witness :
  exists o s' evs,
    run_handler calm_env HCallback stranger_update (session_state sample_disk)
    = (o, s')
    /\ appended (session_state sample_disk) s' evs
    /\ existsb calls_repository_or_producer evs = false
    /\ db_calls s' = db_calls (session_state sample_disk)
    /\ fs s' = fs (session_state sample_disk)
    /\ (o = Ret tt -> evs = denial HCallback stranger_update).
Proof.
  apply (@handlers_deny_unauthorized calm_env HCallback stranger_update
                                     (session_state sample_disk)).
  reflexivity.
Defined.

Lemma start_refused_witness :
  exists s' evs,
    start backups_off_env (session_state sample_disk) = (Ret false, s')
    /\ same_session (session_state sample_disk) s'
    /\ sdk_calls s' = sdk_calls (session_state sample_disk)
    /\ appended (session_state sample_disk) s' evs
    /\ existsb binds_or_spawns evs = false.
Proof.
  apply (@start_refused backups_off_env (session_state sample_disk)
           (snd (load_settings backups_off_env (session_state sample_disk)))).
  - reflexivity.
  - left. reflexivity.
Defined.

(* ================================================================== *)
(** * Further properties of the code *)

(** ** Loading the settings *)

(** X1: when the settings query raises, [load_settings] raises the
    database error and assigns nothing: the bot object and the files are
    as before. *)
Theorem load_settings_failure_assigns_nothing :
  forall (env : Env) (s s' : State) (e : Exc),
    load_settings env s = (Raise e, s') ->
    e = DbError
    /\ db_fails env (db_calls s) = true
    /\ self s' = self s
    /\ fs s' = fs s.
Proof.
  intros env s s' e H. unfold load_settings in H.
  invert_run H; repeat split; auto;
    match goal with
    | H : negb ?b = false |- ?b = true => now apply negb_false_iff in H
    end.
Qed.

Lemma load_settings_failure_assigns_nothing_witness :
  DbError = DbError
  /\ db_fails db_down_env (db_calls (session_state sample_disk)) = true
  /\ self (snd (load_settings db_down_env (session_state sample_disk)))
     = self (session_state sample_disk)
  /\ fs (snd (load_settings db_down_env (session_state sample_disk)))
     = fs (session_state sample_disk).
Proof.
  apply (@load_settings_failure_assigns_nothing db_down_env
           (session_state sample_disk)
           (snd (load_settings db_down_env (session_state sample_disk)))
           DbError).
  reflexivity.
Defined.

(** X2: a missing settings row and a settings object without keys give
    the same result: every setting falls back to its default (disabled,
    no token, no administrators, backups off, 60 minutes) while the
    handles of the application and of the task are left alone; after such
    a load nobody passes the access check. *)
Theorem load_settings_defaults :
  forall (env : Env) (s s' : State),
    load_settings env s = (Ret tt, s') ->
    telegram_row env (db_calls s) = None
    \/ telegram_row env (db_calls s) = Some empty_object ->
    self s' = default_settings (self s)
    /\ forall user_id, is_admin (self s') user_id = false.
Proof.
  intros env s s' H Hrow.
  rewrite (load_settings_self env s H eq_refl).
  assert (E : with_settings (telegram_row env (db_calls s)) (self s)
              = default_settings (self s))
    by (destruct Hrow as [-> | ->]; reflexivity).
  rewrite E. split; [reflexivity | intros; reflexivity].
Qed.

Lemma load_settings_defaults_witness :
  self (snd (load_settings no_row_env (session_state sample_disk)))
  = default_settings (self (session_state sample_disk))
  /\ forall user_id,
       is_admin (self (snd (load_settings no_row_env (session_state sample_disk))))
                user_id = false.
Proof.
  apply (@load_settings_defaults no_row_env (session_state sample_disk)
           (snd (load_settings no_row_env (session_state sample_disk)))).
  - reflexivity.
  - left. reflexivity.
Defined.

(** ** Stopping, again *)

(** X3: in a session that satisfies the invariant, [stop] leaves no
    scheduler task alive and no application polling, and the bot holds
    no handle: the result is a stopped session that satisfies the
    invariant again. *)
Theorem stop_clears_session :
  forall (env : Env) (s : State),
    session_inv s ->
    exists s',
      stop env s = (Ret tt, s')
      /\ live_tasks s' = []
      /\ receiving s' = []
      /\ application (self s') = None
      /\ backup_task (self s') = None
      /\ session_inv s'.
Proof.
  intros env s (Hout & Hl & Hr).
  destruct (stop_spec env s Hout)
    as (s' & Hrun & Ha & Ht & Hout' & Hl' & Hr' & _).
  assert (El : live_tasks s' = []).
  { rewrite Hl', Hl. destruct (backup_task (self s)); simpl; auto.
    now rewrite Nat.eqb_refl. }
  assert (Er : receiving s' = []).
  { rewrite Hr', Hr. destruct (application (self s)) as [[a r] | ]; simpl; auto.
    destruct r; simpl; auto. now rewrite Nat.eqb_refl. }
  exists s'. repeat split; auto.
  - rewrite El, Ht. reflexivity.
  - rewrite Er, Ha. reflexivity.
Qed.

Lemma stop_clears_session_witness :
  exists s',
    stop second_call_fails_env (session_state sample_disk) = (Ret tt, s')
    /\ live_tasks s' = []
    /\ receiving s' = []
    /\ application (self s') = None
    /\ backup_task (self s') = None
    /\ session_inv s'.
Proof.
  apply (@stop_clears_session second_call_fails_env (session_state sample_disk)).
  unfold session_inv. simpl. auto.
Defined.

(** ** The producer, again *)

(** X4: [create_backup] never raises and is never cancelled: every
    failure inside it comes back as [None].  It makes no database query
    and no SDK call, and it leaves the bot object, the tasks and the
    applications alone. *)
Theorem create_backup_always_returns :
  forall (env : Env) (s : State),
    exists r s' evs,
      create_backup env s = (Ret r, s')
      /\ steady s s'
      /\ appended s s' evs
      /\ existsb is_external_call evs = false.
Proof.
  intros env s.
  destruct (create_backup_spec env s) as (r & s' & Hrun & Hst & Hcases).
  destruct Hcases as [(ts & _ & _ & _ & Hev) | [_ Hev]];
    eexists; eexists; eexists; (split; [exact Hrun | ]);
    (split; [exact Hst | ]); (split; [exact Hev | reflexivity]).
Qed.

(** X5: when [create_backup] returns a path, the path is
    [/tmp/smite_backup_<timestamp>.zip], a readable file is there, and
    the staging directory is gone. *)
Theorem create_backup_success :
  forall (env : Env) (s s' : State) (p : Path),
    create_backup env s = (Ret (Some p), s') ->
    (exists ts, p = backup_file_at ts)
    /\ fs_lookup p (fs s') = Some (File true)
    /\ fs_exists (resolve env backup_dir) (fs s') = false.
Proof.
  intros env s s' p Hc.
  destruct (create_backup_spec env s) as (r & s1 & Hc' & _ & Hcases).
  rewrite Hc in Hc'. inversion Hc'; subst r s1; clear Hc'.
  destruct Hcases as [(ts & Hp & Hfile & Hgone & _) | [Hn _]]; [ | discriminate Hn].
  inversion Hp; subst p. split; [exists ts; reflexivity | ].
  split; [exact Hfile | ]. unfold fs_exists. now rewrite Hgone.
Qed.

Lemma create_backup_success_witness :
  (exists ts, sample_artifact = backup_file_at ts)
  /\ fs_lookup sample_artifact
               (fs (snd (create_backup calm_env (session_state sample_disk))))
     = Some (File true)
  /\ fs_exists (resolve calm_env backup_dir)
               (fs (snd (create_backup calm_env (session_state sample_disk))))
     = false.
Proof.
  apply (@create_backup_success calm_env (session_state sample_disk)
           (snd (create_backup calm_env (session_state sample_disk)))
           sample_artifact).
  vm_compute. reflexivity.
Defined.

(** ** Restarting the scheduler *)

(** X6: [start_backup_task], called from outside the backup task in a
    state where the live tasks are the one the bot holds, first cancels
    that task and then reloads the settings.  When the reload succeeds a
    new task is created exactly when the fresh settings have backups
    enabled and at least one administrator; when the reload raises, the
    database error propagates and no scheduler task is left.  Either way
    the live tasks are again the one the bot holds, and the application
    handle is untouched. *)
Theorem start_backup_task_restart :
  forall (env : Env) (s : State),
    in_backup_task s = false ->
    tasks_held s ->
    exists o s',
      start_backup_task env s = (o, s')
      /\ returns_or_raises o
      /\ tasks_held s'
      /\ application (self s') = application (self s)
      /\ (o = Ret tt ->
          backup_enabled (self s')
          = row_backup_enabled (telegram_row env (db_calls s))
          /\ backup_task (self s')
             = if (backup_enabled (self s') && truthy_list (admin_ids (self s')))%bool
               then Some (next_task s)
               else None)
      /\ (forall e, o = Raise e ->
                    e = DbError /\ backup_task (self s') = None
                    /\ live_tasks s' = []).
Proof.
  intros env s Hout Hheld. unfold tasks_held in *.
  unfold start_backup_task, stop_backup_task, cancel_and_await, load_settings,
    create_task.
  run.
  destruct (backup_task (self s)) as [t | ] eqn:Ht; run; rewrite Hout; run;
    rewrite ?Hheld; simpl; rewrite ?Nat.eqb_refl; simpl;
    (destruct (db_fails env (db_calls s)) eqn:Edb; run;
     [ | destruct (telegram_row env (db_calls s)) as [v | ] eqn:Erow; run;
         [destruct (match sv_backup_enabled v with Some x => x | None => false end
                    && truthy_list
                         (match sv_admin_ids v with Some x => x | None => [] end))%bool
            eqn:Econd; run | ] ]);
    (eexists; eexists; split; [reflexivity | ]); simpl;
    rewrite ?Hheld; simpl; rewrite ?Nat.eqb_refl; simpl;
    rewrite ?Econd;
    repeat split; auto; try discriminate;
    try (intros e E; inversion E; reflexivity);
    try (intros e E; discriminate E);
    try (rewrite Ht; reflexivity);
    try match goal with
        | H : Raise _ = Raise _ |- _ => inversion H; reflexivity
        end.
Qed.

Lemma start_backup_task_restart_witness :
  exists o s',
    start_backup_task calm_env (session_state sample_disk) = (o, s')
    /\ returns_or_raises o
    /\ tasks_held s'
    /\ application (self s') = application (self (session_state sample_disk))
    /\ (o = Ret tt ->
        backup_enabled (self s')
        = row_backup_enabled
            (telegram_row calm_env (db_calls (session_state sample_disk)))
        /\ backup_task (self s')
           = if (backup_enabled (self s') && truthy_list (admin_ids (self s')))%bool
             then Some (next_task (session_state sample_disk))
             else None)
    /\ (forall e, o = Raise e ->
                  e = DbError /\ backup_task (self s') = None
                  /\ live_tasks s' = []).
Proof.
  apply (@start_backup_task_restart calm_env (session_state sample_disk)).
  - reflexivity.
  - reflexivity.
Defined.

(** ** Starting, again *)

Lemma load_settings_failure_raises env s e s' :
  load_settings env s = (Raise e, s') ->
  e = DbError /\ self s' = self s.
Proof.
  intros H. unfold load_settings in H. invert_run H; auto.
Qed.

Lemma start_eq env :
  start env
  = if negb (TELEGRAM_AVAILABLE env) then
      log Error "python-telegram-bot not available. Cannot start bot." ;;
      ret false
    else
      load_settings env ;;
      b <- get_self ;;
      if (negb (enabled b) || negb (truthy_opt_string (bot_token b)))%bool then
        log Info "Telegram bot not enabled or token not set" ;;
        ret false
      else
        stop env ;;
        try_except (start_block env) (start_cleanup env).
Proof. reflexivity. Qed.

Lemma start_block_spec env s :
  stopped s -> wp (start_block env) (bound_or_failed s) s.
Proof.
  intros (Hout & Hl & Hr & Ht & Ha). unfold start_block.
  apply wp_bind.
  eapply wp_mono; [apply (build_application_spec env s Hout Hl Hr Ht Ha) | ].
  intros o s3 Hb. destruct o as [a | e | | ]; simpl in *; try contradiction.
  2:{ exact Hb. }
  do 9 calm_step Hb.
  apply (start_tail_spec env Hb).
Qed.

Lemma start_block_returns_true env s b s' :
  start_block env s = (Ret b, s') -> b = true.
Proof.
  unfold start_block. intros H.
  repeat (apply bind_ret_inv in H; destruct H as (? & ? & _ & H)).
  unfold ret in H. now inversion H.
Qed.

Lemma stop_from_inv env s :
  session_inv s ->
  exists s',
    stop env s = (Ret tt, s')
    /\ stopped s'
    /\ grows s s'.
Proof.
  intros (Hout & Hl & Hr).
  destruct (stop_spec env s Hout)
    as (s' & Hrun & Ha & Ht & Hout' & Hl' & Hr' & _ & Hev & _).
  exists s'. split; [exact Hrun | ]. split; [ | eexists; exact Hev].
  unfold stopped. repeat split; auto.
  - rewrite Hl', Hl. destruct (backup_task (self s)); simpl; auto.
    now rewrite Nat.eqb_refl.
  - rewrite Hr', Hr. destruct (application (self s)) as [[a r] | ]; simpl; auto.
    destruct r; simpl; auto. now rewrite Nat.eqb_refl.
Qed.

Lemma stopped_inv s : stopped s -> session_inv s.
Proof.
  unfold stopped, session_inv. intros (Hout & Hl & Hr & Ht & Ha).
  rewrite Hl, Hr, Ht, Ha. auto.
Qed.

(** X7: [start] is all or nothing.  In a session that satisfies the
    invariant it ends in one of four ways, and keeps the invariant in
    each.  It returns [True] with exactly one application polling, the
    one the bot holds.  Or it returns [False] without having touched the
    session (SDK missing, bot disabled, no token).  Or it returns [False]
    after a failed binding, and then the session is stopped: no handle,
    no task, nothing polling, never a half-bound transport.  Or the first
    settings query raises, and the database error propagates with the
    session untouched. *)
Theorem start_all_or_nothing :
  forall (env : Env) (s : State),
    session_inv s ->
    exists o s',
      start env s = (o, s')
      /\ session_inv s'
      /\ match o with
         | Ret true =>
             exists a, application (self s') = Some (mkApplication a true)
                       /\ receiving s' = [a]
         | Ret false => same_session s s' \/ stopped s'
         | Raise e =>
             e = DbError /\ same_session s s'
             /\ load_settings env s = (Raise e, s')
         | Cancel | Timeout => False
         end.
Proof.
  intros env s Hinv. rewrite start_eq.
  destruct (TELEGRAM_AVAILABLE env); simpl.
  2:{ run. eexists; eexists; split; [reflexivity | ].
      split; [exact Hinv | left; unfold same_session; simpl; tauto]. }
  unfold bind at 1.
  destruct (load_settings env s) as [o s1] eqn:Hl.
  destruct (load_settings_frame env s Hl) as (Hss & _ & _ & _).
  pose proof (session_inv_same_session Hss Hinv) as Hinv1.
  destruct o as [[] | e | | ].
  2:{ exists (Raise e), s1. split; [reflexivity | ]. split; [exact Hinv1 | ].
      destruct (load_settings_failure_raises env s Hl) as (He & _).
      auto. }
  2:{ exfalso. destruct Hinv as (Hout & _).
      unfold load_settings in Hl. run. rewrite Hout in Hl. invert_run Hl. }
  2:{ exfalso. unfold load_settings in Hl. invert_run Hl. }
  unfold bind at 1. unfold get_self at 1.
  destruct (negb (enabled (self s1))
            || negb (truthy_opt_string (bot_token (self s1))))%bool.
  { run. eexists; eexists; split; [reflexivity | ].
    split; [exact Hinv1 | left].
    unfold same_session in *. simpl. exact Hss. }
  unfold bind at 1.
  destruct (stop_from_inv env Hinv1) as (s2 & Hs2 & Hstopped & _).
  rewrite Hs2.
  pose proof (start_block_spec env Hstopped) as Hblock. unfold wp in Hblock.
  unfold try_except.
  destruct (start_block env s2) as [[b | e | | ] s3] eqn:Eb;
    simpl in Hblock; try contradiction.
  - rewrite (start_block_returns_true env s2 Eb) in *.
    destruct Hblock as (Hinv3 & _ & Hb).
    destruct (Hb eq_refl) as (a & rest & Ha & _).
    exists (Ret true), s3. split; [reflexivity | ]. split; [exact Hinv3 | ].
    exists a. split; [exact Ha | ].
    destruct Hinv3 as (_ & _ & Hr3). rewrite Hr3, Ha. reflexivity.
  - destruct Hblock as (Hinv3 & _).
    unfold start_cleanup. run.
    match goal with
    | |- context [stop env ?st] =>
        destruct (@stop_from_inv env st) as (s4 & Hs4 & Hstopped4 & _);
          [exact Hinv3 | ]
    end.
    rewrite Hs4. run.
    exists (Ret false), s4. split; [reflexivity | ].
    split; [exact (stopped_inv Hstopped4) | right; exact Hstopped4].
Qed.

Lemma start_all_or_nothing_witness :
  exists o s',
    start calm_env (session_state sample_disk) = (o, s')
    /\ session_inv s'
    /\ match o with
       | Ret true =>
           exists a, application (self s') = Some (mkApplication a true)
                     /\ receiving s' = [a]
       | Ret false => same_session (session_state sample_disk) s' \/ stopped s'
       | Raise e =>
           e = DbError /\ same_session (session_state sample_disk) s'
           /\ load_settings calm_env (session_state sample_disk) = (Raise e, s')
       | Cancel | Timeout => False
       end.
Proof.
  apply (@start_all_or_nothing calm_env (session_state sample_disk)).
  unfold session_inv. simpl. auto.
Defined.

Lemma load_settings_ok env s :
  in_backup_task s = false ->
  db_fails env (db_calls s) = false ->
  load_settings env s = (Ret tt, loaded env s).
Proof.
  intros Hout Hdb. unfold load_settings, loaded. run.
  rewrite Hout. run. rewrite Hdb. run. rewrite ?Hout. reflexivity.
Qed.

Lemma sdk_ok env c s :
  in_backup_task s = false ->
  sdk_fails env (sdk_calls s) = false ->
  sdk env c s = (Ret tt, sdk_done c s).
Proof.
  intros Hout Hsdk. unfold sdk_done. run. rewrite Hout. run.
  rewrite Hsdk. run. rewrite ?Hout. reflexivity.
Qed.

Lemma build_application_ok env s :
  sdk_fails env (sdk_calls s) = false ->
  build_application env s = (Ret (next_app s), built s).
Proof.
  intros Hsdk. unfold build_application, built. run.
  rewrite Hsdk. run. reflexivity.
Qed.

Lemma start_polling_ok env a s :
  in_backup_task s = false ->
  sdk_fails env (sdk_calls s) = false ->
  start_polling env a s = (Ret tt, polling_started a s).
Proof.
  intros Hout Hsdk. unfold start_polling, polling_started. run.
  rewrite Hout. run. rewrite Hsdk. run. rewrite ?Hout. reflexivity.
Qed.

Lemma application_with_settings r b :
  application (with_settings r b) = application b.
Proof. destruct r; reflexivity. Qed.

Lemma backup_task_with_settings r b :
  backup_task (with_settings r b) = backup_task b.
Proof. destruct r; reflexivity. Qed.

Lemma start_backup_task_ok env s :
  in_backup_task s = false ->
  backup_task (self s) = None ->
  db_fails env (db_calls s) = false ->
  exists s' rest,
    start_backup_task env s = (Ret tt, s')
    /\ application (self s') = application (self s)
    /\ trace s' = trace s ++ EvQuery SelectSettings true :: rest
    /\ existsb is_external_call rest = false
    /\ (backup_task (self s') <> None <-> wants_scheduler (self s') = true).
Proof.
  intros Hout Ht Hdb.
  unfold start_backup_task, stop_backup_task, create_task, wants_scheduler.
  unfold bind at 1. unfold bind at 1. unfold get_self at 1. rewrite Ht.
  unfold ret at 1. unfold bind at 1.
  rewrite (load_settings_ok env s Hout Hdb).
  unfold bind at 1. unfold get_self at 1.
  destruct (backup_enabled (self (loaded env s))
            && truthy_list (admin_ids (self (loaded env s))))%bool eqn:Ec.
  - run. eexists. eexists. split; [reflexivity | ]. simpl in *.
    split; [apply application_with_settings | ].
    split; [rewrite <- !app_assoc; reflexivity | ].
    split; [reflexivity | ].
    split; [intros _; exact Ec | intros _; discriminate].
  - run. eexists. exists []. split; [reflexivity | ]. simpl in *.
    split; [apply application_with_settings | ].
    split; [reflexivity | ]. split; [reflexivity | ].
    rewrite backup_task_with_settings, Ht, Ec.
    split; [intros H; now elim H | discriminate].
Qed.

(** X8: the successful start.  In a session that satisfies the
    invariant, with the SDK installed, a database and an SDK that do not
    fail, and fresh settings that enable the bot and carry a token,
    [start] returns [True].  Its events are, in order: the settings
    query, the full stop of the earlier session, then the binding of a
    new application (built, the six commands and the callback handler
    registered, initialized, started, polling with the pending updates
    dropped), then the settings query of the scheduler and no further
    external call.  A scheduler task is held exactly when the reloaded
    settings ask for one. *)
Theorem start_succeeds :
  forall (env : Env) (s : State),
    session_inv s ->
    TELEGRAM_AVAILABLE env = true ->
    (forall k, db_fails env k = false) ->
    (forall k, sdk_fails env k = false) ->
    enabled (self (loaded env s)) = true ->
    truthy_opt_string (bot_token (self (loaded env s))) = true ->
    exists s' rest,
      start env s = (Ret true, s')
      /\ application (self s') = Some (mkApplication (next_app s) true)
      /\ appended s s'
           (EvQuery SelectSettings true
              :: stop_events env (loaded env s)
              ++ binding_events (next_app s)
              ++ EvQuery SelectSettings true :: rest)
      /\ existsb is_external_call rest = false
      /\ (backup_task (self s') <> None <-> wants_scheduler (self s') = true).
Proof.
  intros env s Hinv Havail Hdb Hsdk Hen Htok.
  pose proof Hinv as (Hout & _ & _).
  rewrite start_eq, Havail. simpl.
  unfold bind at 1. rewrite (load_settings_ok env s Hout (Hdb _)).
  unfold bind at 1. unfold get_self at 1. rewrite Hen, Htok. simpl.
  assert (Hinv1 : session_inv (loaded env s)).
  { destruct Hinv as (H1 & H2 & H3). unfold session_inv, loaded. simpl.
    destruct (telegram_row env (db_calls s)); simpl; auto. }
  destruct (stop_spec env (loaded env s) (proj1 Hinv1))
    as (s2 & Hs2 & Ha2 & Ht2 & Hout2 & _ & _ & Hnext & Hev2 & _).
  unfold bind at 1. rewrite Hs2. cbv beta iota.
  unfold try_except, start_block.
  unfold bind at 1. rewrite (build_application_ok env s2 (Hsdk _)).
  cbv beta iota.
  do 7 (unfold bind at 1; unfold add_handler at 1; unfold event at 1;
        cbv beta iota).
  unfold bind at 1. rewrite sdk_ok; [ | exact Hout2 | apply Hsdk].
  cbv beta iota.
  unfold bind at 1. rewrite sdk_ok; [ | exact Hout2 | apply Hsdk].
  cbv beta iota.
  unfold bind at 1. rewrite start_polling_ok; [ | exact Hout2 | apply Hsdk].
  cbv beta iota.
  unfold bind at 1.
  match goal with
  | |- context [start_backup_task env ?st] =>
      destruct (@start_backup_task_ok env st Hout2 Ht2 (Hdb _))
        as (s3 & rest & Hs3 & Ha3 & Htr3 & Hrest & Hwant)
  end.
  rewrite Hs3. cbv beta iota.
  unfold bind, log, ret. cbv beta iota.
  eexists. exists (rest ++ [EvLog Info "Telegram bot started successfully"]).
  split; [reflexivity | ].
  simpl in Ha3, Htr3.
  split; [simpl; rewrite Ha3, Hnext; reflexivity | ].
  split.
  - unfold appended in *. simpl. rewrite Htr3, Hev2, Hnext. simpl.
    repeat (rewrite <- app_assoc; simpl). reflexivity.
  - split; [ | exact Hwant].
    rewrite existsb_app, Hrest. reflexivity.
Qed.

Lemma start_succeeds_witness :
  exists s' rest,
    start calm_env (session_state sample_disk) = (Ret true, s')
    /\ application (self s')
       = Some (mkApplication (next_app (session_state sample_disk)) true)
    /\ appended (session_state sample_disk) s'
         (EvQuery SelectSettings true
            :: stop_events calm_env (loaded calm_env (session_state sample_disk))
            ++ binding_events (next_app (session_state sample_disk))
            ++ EvQuery SelectSettings true :: rest)
    /\ existsb is_external_call rest = false
    /\ (backup_task (self s') <> None <-> wants_scheduler (self s') = true).
Proof.
  apply (@start_succeeds calm_env (session_state sample_disk)).
  - unfold session_inv. simpl. auto.
  - reflexivity.
  - intros k. reflexivity.
  - intros k. reflexivity.
  - reflexivity.
  - reflexivity.
Defined.

(** ** The working scheduler *)





(** X10: a cancellation that arrives while the task sleeps ends the loop
    at once: the outcome is the re-raised cancellation, the events are
    the settings query, the sleep and the log line, the producer is not
    entered and the files are untouched. *)
Theorem cancel_during_sleep_skips_backup :
  forall (env : Env) (fuel : nat) (s s1 : State),
    in_backup_task s = true ->
    load_settings env s = (Ret tt, s1) ->
    cancel_at env (suspensions s1) = true ->
    exists s' seconds,
      _backup_loop env (S fuel) s = (Cancel, s')
      /\ appended s s' [EvQuery SelectSettings true; EvSleep seconds;
                        EvLog Info "Backup loop cancelled"]
      /\ fs s' = fs s.
Proof.
  intros env fuel s s1 Ht Hl Hc.
  destruct (load_settings_frame env s Hl)
    as ((_ & _ & _ & _ & _ & _ & Hin) & _ & Hfs & evs & Happ & _ & Hevs).
  specialize (Hevs eq_refl). subst evs. rewrite Ht in Hin.
  assert (Hsleep : forall z,
             sleep env z s1
             = (Cancel,
                mkState (self s1) (fs s1) (in_backup_task s1) (db_calls s1)
                        (sdk_calls s1) (S (suspensions s1)) (clock_reads s1)
                        (next_app s1) (next_task s1) (live_tasks s1)
                        (receiving s1) (trace s1 ++ [EvSleep z]))).
  { intros z. run. rewrite Hin. run. rewrite Hc. reflexivity. }
  unfold _backup_loop, try_except_cancelled. cbn [while_true].
  unfold bind at 1. unfold backup_cycle. unfold bind at 1. rewrite Hl.
  unfold bind at 1. unfold get_self at 1.
  destruct (negb (backup_enabled (self s1))
            || negb (truthy_list (admin_ids (self s1))))%bool.
  - rewrite Hsleep. run. eexists. exists 60. split; [reflexivity | ]. simpl.
    split; [ | exact Hfs].
    unfold appended in *. simpl. rewrite Happ. now rewrite <- !app_assoc.
  - unfold bind at 1. rewrite Hsleep. run.
    eexists. exists (sleep_seconds (self s1)). split; [reflexivity | ]. simpl.
    split; [ | exact Hfs].
    unfold appended in *. simpl. rewrite Happ. now rewrite <- !app_assoc.
Qed.

Lemma cancel_during_sleep_skips_backup_witness :
  exists s' seconds,
    _backup_loop cancel_in_sleep_env 3 (task_state sample_disk) = (Cancel, s')
    /\ appended (task_state sample_disk) s'
                [EvQuery SelectSettings true; EvSleep seconds;
                 EvLog Info "Backup loop cancelled"]
    /\ fs s' = fs (task_state sample_disk).
Proof.
  apply (@cancel_during_sleep_skips_backup cancel_in_sleep_env 2
           (task_state sample_disk)
           (snd (load_settings cancel_in_sleep_env (task_state sample_disk)))).
  - reflexivity.
  - reflexivity.
  - reflexivity.
Defined.

(** X11: without a bound application the [try] block of a cycle is the
    producer call and nothing else: it returns in the very state that
    [create_backup] leaves, so nothing is sent and nothing is unlinked,
    and an archive that was produced stays on the disk. *)
Theorem unbound_scheduler_keeps_artifact :
  forall (env : Env) (s : State),
    application (self s) = None ->
    produce_and_dispatch env s = (Ret tt, snd (create_backup env s))
    /\ forall p, fst (create_backup env s) = Ret (Some p) ->
                 fs_lookup p (fs (snd (produce_and_dispatch env s)))
                 = Some (File true).
Proof.
  intros env s Hnone.
  destruct (create_backup_spec env s) as (r & s1 & Hc & (Hself & _) & Hcases).
  assert (Hrun : produce_and_dispatch env s = (Ret tt, s1)).
  { unfold produce_and_dispatch, try_except. unfold bind at 1. rewrite Hc.
    unfold bind at 1. unfold get_self at 1. rewrite Hself, Hnone.
    destruct r; reflexivity. }
  rewrite Hrun, Hc. simpl. split; [reflexivity | ].
  intros p E. inversion E; subst r.
  destruct Hcases as [(ts & Hp & Hfile & _) | [Hn _]]; [ | discriminate Hn].
  inversion Hp; subst p. exact Hfile.
Qed.

Lemma unbound_scheduler_keeps_artifact_witness :
  produce_and_dispatch calm_env (unbound_task_state sample_disk)
  = (Ret tt, snd (create_backup calm_env (unbound_task_state sample_disk)))
  /\ forall p,
       fst (create_backup calm_env (unbound_task_state sample_disk))
       = Ret (Some p) ->
       fs_lookup p (fs (snd (produce_and_dispatch calm_env
                                                  (unbound_task_state sample_disk))))
       = Some (File true).
Proof.
  apply (@unbound_scheduler_keeps_artifact calm_env (unbound_task_state sample_disk)).
  reflexivity.
Defined.

(** ** The routes of the callback handler *)

Lemma prefix_append (p s : string) : String.prefix p (p ++ s) = true.
Proof.
  induction p as [ | c p IH]; simpl.
  - destruct s; reflexivity.
  - destruct (ascii_dec c c); [exact IH | congruence].
Qed.

Lemma remove_all_skip (pat p s : string) :
  remove_all pat (String.length p) (p ++ s) = remove_all pat O s.
Proof. induction p as [ | c p IH]; simpl; auto. Qed.

Lemma remove_all_absent (pat s : string) :
  occurs pat s = false -> remove_all pat O s = s.
Proof.
  induction s as [ | c s IH]; simpl; intros H; [reflexivity | ].
  apply orb_false_iff in H. destruct H as [Hp Ho].
  simpl in Hp. rewrite Hp. now rewrite IH.
Qed.

(** Stripping the marker from the data of a button gives the identifier
    back, when the identifier does not contain the marker itself. *)
Lemma remove_all_marker (c : ascii) (pat id : string) :
  occurs (String c pat) id = false ->
  remove_all (String c pat) O (String c pat ++ id) = id.
Proof.
  intros H.
  change (String c pat ++ id)%string with (String c (pat ++ id)%string).
  cbn [remove_all].
  change (String c (pat ++ id)%string) with (String c pat ++ id)%string.
  rewrite prefix_append.
  change (Nat.pred (String.length (String c pat))) with (String.length pat).
  rewrite remove_all_skip. now apply remove_all_absent.
Qed.

Lemma execute_ok env q s :
  in_backup_task s = false ->
  db_fails env (db_calls s) = false ->
  execute env q s
  = (Ret (db_calls s),
     mkState (self s) (fs s) (in_backup_task s) (S (db_calls s)) (sdk_calls s)
             (suspensions s) (clock_reads s) (next_app s) (next_task s)
             (live_tasks s) (receiving s) (trace s ++ [EvQuery q true])).
Proof.
  intros Hout Hdb. run. rewrite Hout. run. rewrite Hdb. run.
  rewrite ?Hout. reflexivity.
Qed.

(** X12: the round trip of a node button.  When an administrator presses
    a button whose data is [node_callback_data id], for an identifier
    that does not contain the marker, and the database and the SDK work,
    the callback handler answers the press, looks up exactly the node
    [id], and edits the message to the information of the first node
    with that identifier, or to "not found" when there is none. *)
Theorem node_button_round_trip :
  forall (env : Env) (u : Update) (s : State) (id : string),
    in_backup_task s = false ->
    is_admin (self s) (effective_user_id u) = true ->
    data u = node_callback_data id ->
    occurs "node_info_" id = false ->
    db_fails env (db_calls s) = false ->
    (forall k, sdk_fails env k = false) ->
    exists s',
      handle_callback env u s = (Ret tt, s')
      /\ appended s s'
           [EvSdk (Answer (chat_id u)) true;
            EvQuery (SelectNode id) true;
            EvSdk (EditMessageText (chat_id u)
                     match find (fun r => String.eqb (node_id r) id)
                                (nodes_table env) with
                     | Some row => MsgNodeInfo row
                     | None => MsgNodeNotFound
                     end) true].
Proof.
  intros env u s id Hout Hadm Hdata Hocc Hdb Hsdk.
  unfold handle_callback.
  unfold bind at 1. rewrite (sdk_ok env _ s Hout (Hsdk _)).
  unfold bind at 1. unfold get_self at 1.
  change (self (sdk_done (Answer (chat_id u)) s)) with (self s).
  rewrite Hadm. change (negb true) with false. cbv beta iota zeta.
  rewrite Hdata. unfold node_callback_data at 1.
  rewrite prefix_append.
  unfold node_callback_data. rewrite (remove_all_marker _ _ id Hocc).
  unfold show_node_info.
  unfold bind at 1. rewrite execute_ok; [ | exact Hout | exact Hdb].
  destruct (find (fun r => String.eqb (node_id r) id) (nodes_table env));
    (rewrite sdk_ok; [ | exact Hout | apply Hsdk]);
    (eexists; split; [reflexivity | ]);
    unfold appended; simpl; rewrite <- !app_assoc; reflexivity.
Qed.

Lemma node_button_round_trip_witness :
  exists s',
    handle_callback calm_env (admin_button (node_callback_data "n1"))
                    (session_state sample_disk) = (Ret tt, s')
    /\ appended (session_state sample_disk) s'
         [EvSdk (Answer 11) true;
          EvQuery (SelectNode "n1") true;
          EvSdk (EditMessageText 11
                   match find (fun r => String.eqb (node_id r) "n1")
                              (nodes_table calm_env) with
                   | Some row => MsgNodeInfo row
                   | None => MsgNodeNotFound
                   end) true].
Proof.
  apply (@node_button_round_trip calm_env
           (admin_button (node_callback_data "n1"))
           (session_state sample_disk) "n1");
    reflexivity.
Defined.

(** X13: the round trip of a tunnel button: the data
    [tunnel_callback_data id] is never taken for a node button, and the
    handler looks up exactly the tunnel [id]. *)
Theorem tunnel_button_round_trip :
  forall (env : Env) (u : Update) (s : State) (id : string),
    in_backup_task s = false ->
    is_admin (self s) (effective_user_id u) = true ->
    data u = tunnel_callback_data id ->
    occurs "tunnel_info_" id = false ->
    db_fails env (db_calls s) = false ->
    (forall k, sdk_fails env k = false) ->
    exists s',
      handle_callback env u s = (Ret tt, s')
      /\ appended s s'
           [EvSdk (Answer (chat_id u)) true;
            EvQuery (SelectTunnel id) true;
            EvSdk (EditMessageText (chat_id u)
                     match find (fun r => String.eqb (tunnel_id r) id)
                                (tunnels_table env) with
                     | Some row => MsgTunnelInfo row
                     | None => MsgTunnelNotFound
                     end) true].
Proof.
  intros env u s id Hout Hadm Hdata Hocc Hdb Hsdk.
  unfold handle_callback.
  unfold bind at 1. rewrite (sdk_ok env _ s Hout (Hsdk _)).
  unfold bind at 1. unfold get_self at 1.
  change (self (sdk_done (Answer (chat_id u)) s)) with (self s).
  rewrite Hadm. change (negb true) with false. cbv beta iota zeta.
  rewrite Hdata.
  change (String.prefix "node_info_" (tunnel_callback_data id)) with false.
  cbv iota.
  unfold tunnel_callback_data at 1. rewrite prefix_append.
  unfold tunnel_callback_data. rewrite (remove_all_marker _ _ id Hocc).
  unfold show_tunnel_info.
  unfold bind at 1. rewrite execute_ok; [ | exact Hout | exact Hdb].
  destruct (find (fun r => String.eqb (tunnel_id r) id) (tunnels_table env));
    (rewrite sdk_ok; [ | exact Hout | apply Hsdk]);
    (eexists; split; [reflexivity | ]);
    unfold appended; simpl; rewrite <- !app_assoc; reflexivity.
Qed.

Lemma tunnel_button_round_trip_witness :
  exists s',
    handle_callback calm_env (admin_button (tunnel_callback_data "t9"))
                    (session_state sample_disk) = (Ret tt, s')
    /\ appended (session_state sample_disk) s'
         [EvSdk (Answer 11) true;
          EvQuery (SelectTunnel "t9") true;
          EvSdk (EditMessageText 11
                   match find (fun r => String.eqb (tunnel_id r) "t9")
                              (tunnels_table calm_env) with
                   | Some row => MsgTunnelInfo row
                   | None => MsgTunnelNotFound
                   end) true].
Proof.
  apply (@tunnel_button_round_trip calm_env
           (admin_button (tunnel_callback_data "t9"))
           (session_state sample_disk) "t9");
    reflexivity.
Defined.

(** X14: callback data that matches no route is ignored: the handler
    answers the press and does nothing else, for an administrator too. *)
Theorem unknown_button_is_ignored :
  forall (env : Env) (u : Update) (s : State),
    in_backup_task s = false ->
    is_admin (self s) (effective_user_id u) = true ->
    String.prefix "node_info_" (data u) = false ->
    String.prefix "tunnel_info_" (data u) = false ->
    existsb (String.eqb (data u)) button_commands = false ->
    sdk_fails env (sdk_calls s) = false ->
    handle_callback env u s = (Ret tt, sdk_done (Answer (chat_id u)) s).
Proof.
  intros env u s Hout Hadm Hn Ht Hc Hsdk.
  unfold button_commands in Hc. simpl in Hc.
  repeat (apply orb_false_iff in Hc; destruct Hc as [? Hc]).
  unfold handle_callback.
  unfold bind at 1. rewrite (sdk_ok env _ s Hout Hsdk).
  unfold bind at 1. unfold get_self at 1.
  change (self (sdk_done (Answer (chat_id u)) s)) with (self s).
  rewrite Hadm. change (negb true) with false. cbv beta iota zeta.
  rewrite Hn, Ht.
  repeat match goal with
         | H : String.eqb (data u) _ = false |- _ => rewrite H; clear H
         end.
  reflexivity.
Qed.

Lemma unknown_button_is_ignored_witness :
  handle_callback calm_env (admin_button "cmd_reboot") (session_state sample_disk)
  = (Ret tt, sdk_done (Answer 11) (session_state sample_disk)).
Proof.
  apply (@unknown_button_is_ignored calm_env (admin_button "cmd_reboot")
           (session_state sample_disk));
    reflexivity.
Defined.

(** ** The backup button *)


(** ** Handlers do not touch the session *)

Lemma untouched_refl s : untouched s s.
Proof. unfold untouched. tauto. Qed.

Lemma untouched_trans s1 s2 s3 :
  untouched s1 s2 -> untouched s2 s3 -> untouched s1 s3.
Proof.
  unfold untouched. intros H1 H2. decompose [and] H1. decompose [and] H2.
  repeat split; congruence.
Qed.

Lemma inert_ret {A} (a : A) : inert (ret a).
Proof. intros s. apply untouched_refl. Qed.

Lemma inert_bind {A B} (m : Task A) (k : A -> Task B) :
  inert m -> (forall a, inert (k a)) -> inert (bind m k).
Proof.
  intros Hm Hk s. unfold bind. specialize (Hm s).
  destruct (m s) as [[a | e | | ] s1]; simpl in *; auto.
  eapply untouched_trans; [exact Hm | apply Hk].
Qed.

Lemma inert_try_except {A} (m : Task A) (h : Exc -> Task A) :
  inert m -> (forall e, inert (h e)) -> inert (try_except m h).
Proof.
  intros Hm Hh s. unfold try_except. specialize (Hm s).
  destruct (m s) as [[a | e | | ] s1]; simpl in *; auto.
  eapply untouched_trans; [exact Hm | apply Hh].
Qed.

Lemma inert_if {A} (c : bool) (m1 m2 : Task A) :
  inert m1 -> inert m2 -> inert (if c then m1 else m2).
Proof. destruct c; auto. Qed.

Ltac inert_prim :=
  intros s; unfold untouched; run;
  repeat (first [split_oracle | split_data]; run);
  repeat split; auto.

Lemma inert_get_self : inert get_self.
Proof. inert_prim. Qed.

Lemma inert_log lvl what : inert (log lvl what).
Proof. inert_prim. Qed.

Lemma inert_sdk env c : inert (sdk env c).
Proof. inert_prim. Qed.

Lemma inert_execute env q : inert (execute env q).
Proof. inert_prim. Qed.

Lemma inert_open_rb p : inert (open_rb p).
Proof. unfold open_rb. inert_prim. Qed.

Lemma inert_os_remove p : inert (os_remove p).
Proof. unfold os_remove. inert_prim. Qed.

Lemma inert_create_backup env : inert (create_backup env).
Proof.
  intros s. destruct (create_backup_spec env s) as (r & s1 & Hc & Hst & _).
  rewrite Hc. unfold steady, untouched in *. simpl. tauto.
Qed.

Create HintDb inert.

#[local] Hint Resolve inert_ret inert_get_self inert_log inert_sdk
  inert_execute inert_open_rb inert_os_remove inert_create_backup : inert.

Ltac inert_auto :=
  repeat first
    [ solve [auto with inert]
    | apply inert_bind; [ | intros ? ]
    | apply inert_try_except; [ | intros ? ]
    | apply inert_if
    | match goal with
      | |- inert (match ?x with _ => _ end) => destruct x
      end ].

(** X16: no handler changes the session.  However a command or callback
    handler ends, for whatever update and with whatever failures of the
    database and the SDK, the bot object (settings and handles), the live
    tasks and the polling applications are exactly as before. *)
Theorem handlers_leave_session_alone :
  forall (env : Env) (h : Handler) (u : Update) (s : State),
    untouched s (snd (run_handler env h u s)).
Proof.
  intros env h u.
  change (inert (run_handler env h u)).
  destruct h; unfold run_handler, cmd_start, cmd_help, cmd_nodes, cmd_tunnels,
    cmd_status, cmd_backup, handle_callback, deny, list_nodes, list_tunnels,
    show_status, show_node_info, show_tunnel_info, cmd_nodes_callback,
    cmd_tunnels_callback, cmd_status_callback, cmd_backup_callback,
    list_nodes, list_tunnels, show_status;
    inert_auto.
Qed.

(** ** Identities as numbers and as strings *)










(** ** A backup of nothing *)












